(** * ScholarshipHub: a shallow embedding of the Solidity contract

    The contract [ScholarshipHub] (Solidity ^0.8.20) is modelled as a
    sequential state machine.  Contract storage is a record; every
    [mapping] is a finite map read with the all-zero default that Solidity
    gives to an unwritten slot; [uint256] values are binary naturals with
    the checked arithmetic of Solidity 0.8 written out (an overflow or an
    underflow reverts the call); a [require] that fails reverts the call
    with its message, and a reverted call leaves storage, balance and log
    as they were.

    Modelling conventions:
    - an external value transfer [addr.call{value: v}("")] succeeds when
      the contract holds at least [v] and the recipient accepts the
      payment; acceptance is an input of the transaction
      ([recipient_accepts]); the recipient does not call back into the
      contract while it is being paid;
    - calls to functions that are not [payable] carry no value (the
      dispatcher rejects them before the body runs), so only
      [createScholarship] and [receive] read [msg_value];
    - ether can also reach the contract without any of its functions
      running (as the beneficiary of a self-destruct, as a block reward,
      or sent to the address before deployment); [credit] is that step,
      and [reachable] includes it;
    - the zero address never sends a transaction;
    - arguments are [uint256] words; the model bounds them only where the
      contract does, through its checked operations. *)

From stdpp Require Import base option gmap list strings.
From Stdlib Require Import NArith Lia.

Local Open Scope N_scope.

(** ** Data structures *)

Abbreviation address := N (only parsing).

Definition MAX_UINT256 : N := 2 ^ 256 - 1.

Record Student := mkStudent {
  studentId : N;
  walletAddress : address;
  applicationHash : string;
  isEligible : bool;
  hasClaimedScholarship : bool;
  verificationTimestamp : N
}.

Record Scholarship := mkScholarship {
  sch_id : N;
  title : string;
  description : string;
  totalAmount : N;
  remainingAmount : N;
  claimAmount : N;
  beneficiaryCount : N;
  claimsProcessed : N;
  creator : address;
  createdAt : N;
  active : bool
}.

Record VerificationRecord := mkVerificationRecord {
  vr_student : address;
  vr_studentId : N;
  vr_isEligible : bool;
  vr_reason : string;
  vr_timestamp : N;
  vr_verifier : address
}.

Inductive Event :=
| StudentRegistered (studentId : N) (walletAddress : address) (applicationHash : string)
| EligibilityVerified (student : address) (studentId : N) (isEligible : bool)
    (reason : string) (timestamp : N)
| ScholarshipCreated (scholarshipId : N) (title : string) (totalAmount claimAmount : N)
    (creator : address)
| ScholarshipClaimed (student : address) (scholarshipId amount timestamp : N)
| FundsDeposited (donor : address) (amount : N)
| FundsWithdrawn (recipient : address) (amount : N)
| OracleAddressUpdated (newOracle : address).

(** Contract storage, the contract's balance and the event log. *)
Record State := mkState {
  owner : address;
  oracleAddress : address;
  scholarshipCounter : N;
  totalFunds : N;
  students : gmap N Student;
  studentIdToWallet : gmap N N;
  scholarships : gmap N Scholarship;
  verificationHistory : gmap N (list VerificationRecord);
  claimedAmounts : gmap N N;
  balance : N;
  events : list Event
}.

(** The transaction context: [msg.sender], [msg.value], [block.timestamp],
    and whether the address paid by this call accepts the payment. *)
Record Tx := mkTx {
  msg_sender : address;
  msg_value : N;
  block_timestamp : N;
  recipient_accepts : bool
}.

(** ** Reading mappings: an unwritten slot reads as zero *)

Definition zeroStudent : Student := mkStudent 0 0 EmptyString false false 0.

Definition zeroScholarship : Scholarship :=
  mkScholarship 0 EmptyString EmptyString 0 0 0 0 0 0 0 false.

Definition get_student (st : State) (a : address) : Student :=
  default zeroStudent (students st !! a).

Definition get_wallet (st : State) (sid : N) : address :=
  default 0 (studentIdToWallet st !! sid).

Definition get_scholarship (st : State) (i : N) : Scholarship :=
  default zeroScholarship (scholarships st !! i).

Definition get_history (st : State) (a : address) : list VerificationRecord :=
  default [] (verificationHistory st !! a).

Definition get_claimed (st : State) (a : address) : N :=
  default 0 (claimedAmounts st !! a).

(** ** Reverts *)

(** One constructor per [require] of the contract, and [Panic] for the
    arithmetic checks the compiler inserts. *)
Inductive Error :=
| NotOwner
| NotOracle
| ScholarshipDoesNotExist
| StudentNotEligible
| InvalidOracleAddress
| InvalidStudentId
| StudentIdAlreadyRegistered
| WalletAlreadyRegistered
| EmptyApplicationHash
| InvalidStudentAddress
| StudentIdMismatch
| MustDepositFunds
| InvalidBeneficiaryCount
| EmptyTitle
| InsufficientFundsForCount
| AlreadyClaimed
| AllFundsDistributed
| InsufficientScholarshipFunds
| TransferFailed
| InsufficientBalance
| WithdrawalFailed
| Panic.

(** The message each [require] carries in the source. *)
Definition message (e : Error) : string :=
  match e with
  | NotOwner => "Only owner can call this function"
  | NotOracle => "Only oracle can call this function"
  | ScholarshipDoesNotExist => "Scholarship does not exist"
  | StudentNotEligible => "Student is not verified as eligible"
  | InvalidOracleAddress => "Invalid oracle address"
  | InvalidStudentId => "Invalid student ID"
  | StudentIdAlreadyRegistered => "Student ID already registered"
  | WalletAlreadyRegistered => "Wallet already registered"
  | EmptyApplicationHash => "Application hash cannot be empty"
  | InvalidStudentAddress => "Invalid student address"
  | StudentIdMismatch => "Student ID mismatch"
  | MustDepositFunds => "Must deposit funds"
  | InvalidBeneficiaryCount => "Beneficiary count must be greater than 0"
  | EmptyTitle => "Title cannot be empty"
  | InsufficientFundsForCount => "Insufficient funds for beneficiary count"
  | AlreadyClaimed => "Student has already claimed scholarship"
  | AllFundsDistributed => "All funds have been distributed"
  | InsufficientScholarshipFunds => "Insufficient scholarship funds"
  | TransferFailed => "Transfer failed"
  | InsufficientBalance => "Insufficient balance"
  | WithdrawalFailed => "Withdrawal failed"
  | Panic => "panic: arithmetic overflow or underflow"
  end.

(** The failure kinds of the design document, and the kind each revert of
    the contract falls under. *)
Inductive ErrorKind :=
| KUnauthorized
| KDuplicateIdentity
| KDuplicateHandle
| KAccountNotFound
| KPoolNotFound
| KIdentityMismatch
| KInvalidCapacity
| KShareTooSmall
| KInvalidInput
| KNotEligible
| KAlreadyClaimed
| KCapacityExhausted
| KInsufficientFunds
| KInsufficientBalance
| KTransferFailed
| KLedgerInvariantViolation.

Definition kind (e : Error) : ErrorKind :=
  match e with
  | NotOwner | NotOracle => KUnauthorized
  | ScholarshipDoesNotExist => KPoolNotFound
  | StudentNotEligible => KNotEligible
  | InvalidOracleAddress => KInvalidInput
  | InvalidStudentId => KInvalidInput
  | StudentIdAlreadyRegistered => KDuplicateIdentity
  | WalletAlreadyRegistered => KDuplicateHandle
  | EmptyApplicationHash => KInvalidInput
  | InvalidStudentAddress => KAccountNotFound
  | StudentIdMismatch => KIdentityMismatch
  | MustDepositFunds => KShareTooSmall
  | InvalidBeneficiaryCount => KInvalidCapacity
  | EmptyTitle => KInvalidInput
  | InsufficientFundsForCount => KShareTooSmall
  | AlreadyClaimed => KAlreadyClaimed
  | AllFundsDistributed => KCapacityExhausted
  | InsufficientScholarshipFunds => KInsufficientFunds
  | TransferFailed => KTransferFailed
  | InsufficientBalance => KInsufficientBalance
  | WithdrawalFailed => KTransferFailed
  | Panic => KLedgerInvariantViolation
  end.

Inductive Result (A : Type) :=
| Ok (a : A)
| Revert (e : Error).
Arguments Ok {A} a.
Arguments Revert {A} e.

Definition bind {A B} (r : Result A) (k : A → Result B) : Result B :=
  match r with
  | Ok a => k a
  | Revert e => Revert e
  end.

Notation "'do' x <- r ; k" := (bind r (fun x => k))
  (at level 10, x name, r at level 100, k at level 200).
Notation "r ;;; k" := (bind r (fun _ => k))
  (at level 100, k at level 200, right associativity).

Definition require (b : bool) (e : Error) : Result unit :=
  if b then Ok tt else Revert e.

(** Checked [uint256] arithmetic of Solidity 0.8. *)
Definition checked_add (a b : N) : Result N :=
  if a + b <=? MAX_UINT256 then Ok (a + b) else Revert Panic.

Definition checked_sub (a b : N) : Result N :=
  if b <=? a then Ok (a - b) else Revert Panic.

Definition nonempty (s : string) : bool :=
  match s with
  | EmptyString => false
  | String _ _ => true
  end.

(** ** The contract's functions *)

Definition constructor (deployer : address) : State :=
  {| owner := deployer;
     oracleAddress := deployer;
     scholarshipCounter := 0;
     totalFunds := 0;
     students := ∅;
     studentIdToWallet := ∅;
     scholarships := ∅;
     verificationHistory := ∅;
     claimedAmounts := ∅;
     balance := 0;
     events := [] |}.

(** Modifiers. *)
Definition onlyOwner (tx : Tx) (st : State) : Result unit :=
  require (msg_sender tx =? owner st) NotOwner.

Definition onlyOracle (tx : Tx) (st : State) : Result unit :=
  require (msg_sender tx =? oracleAddress st) NotOracle.

Definition scholarshipExists (_id : N) (st : State) : Result unit :=
  require ((_id <? scholarshipCounter st) && active (get_scholarship st _id))
          ScholarshipDoesNotExist.

Definition studentIsEligible (_student : address) (st : State) : Result unit :=
  require (isEligible (get_student st _student)) StudentNotEligible.

Definition setOracleAddress (tx : Tx) (_newOracle : address) (st : State)
  : Result State :=
  onlyOwner tx st ;;;
  require (negb (_newOracle =? 0)) InvalidOracleAddress ;;;
  Ok {| owner := owner st;
        oracleAddress := _newOracle;
        scholarshipCounter := scholarshipCounter st;
        totalFunds := totalFunds st;
        students := students st;
        studentIdToWallet := studentIdToWallet st;
        scholarships := scholarships st;
        verificationHistory := verificationHistory st;
        claimedAmounts := claimedAmounts st;
        balance := balance st;
        events := events st ++ [OracleAddressUpdated _newOracle] |}.

Definition registerStudent (tx : Tx) (_studentId : N) (_applicationHash : string)
    (st : State) : Result State :=
  require (0 <? _studentId) InvalidStudentId ;;;
  require (get_wallet st _studentId =? 0) StudentIdAlreadyRegistered ;;;
  require (studentId (get_student st (msg_sender tx)) =? 0) WalletAlreadyRegistered ;;;
  require (nonempty _applicationHash) EmptyApplicationHash ;;;
  Ok {| owner := owner st;
        oracleAddress := oracleAddress st;
        scholarshipCounter := scholarshipCounter st;
        totalFunds := totalFunds st;
        students :=
          <[msg_sender tx :=
              {| studentId := _studentId;
                 walletAddress := msg_sender tx;
                 applicationHash := _applicationHash;
                 isEligible := false;
                 hasClaimedScholarship := false;
                 verificationTimestamp := 0 |}]> (students st);
        studentIdToWallet := <[_studentId := msg_sender tx]> (studentIdToWallet st);
        scholarships := scholarships st;
        verificationHistory := verificationHistory st;
        claimedAmounts := claimedAmounts st;
        balance := balance st;
        events := events st ++
                  [StudentRegistered _studentId (msg_sender tx) _applicationHash] |}.

Definition verifyEligibility (tx : Tx) (_studentAddress : address) (_studentId : N)
    (_isEligible : bool) (_reason : string) (st : State) : Result State :=
  onlyOracle tx st ;;;
  require (negb (_studentAddress =? 0)) InvalidStudentAddress ;;;
  require (studentId (get_student st _studentAddress) =? _studentId)
          StudentIdMismatch ;;;
  let s := get_student st _studentAddress in
  Ok {| owner := owner st;
        oracleAddress := oracleAddress st;
        scholarshipCounter := scholarshipCounter st;
        totalFunds := totalFunds st;
        students :=
          <[_studentAddress :=
              {| studentId := studentId s;
                 walletAddress := walletAddress s;
                 applicationHash := applicationHash s;
                 isEligible := _isEligible;
                 hasClaimedScholarship := hasClaimedScholarship s;
                 verificationTimestamp := block_timestamp tx |}]> (students st);
        studentIdToWallet := studentIdToWallet st;
        scholarships := scholarships st;
        verificationHistory :=
          <[_studentAddress :=
              get_history st _studentAddress ++
              [{| vr_student := _studentAddress;
                  vr_studentId := _studentId;
                  vr_isEligible := _isEligible;
                  vr_reason := _reason;
                  vr_timestamp := block_timestamp tx;
                  vr_verifier := msg_sender tx |}]]> (verificationHistory st);
        claimedAmounts := claimedAmounts st;
        balance := balance st;
        events := events st ++
                  [EligibilityVerified _studentAddress _studentId _isEligible
                     _reason (block_timestamp tx)] |}.

(** [payable]: the value sent with the call is credited to the contract
    when the call succeeds. *)
Definition createScholarship (tx : Tx) (_title : string) (_beneficiaryCount : N)
    (_description : string) (st : State) : Result State :=
  onlyOwner tx st ;;;
  require (0 <? msg_value tx) MustDepositFunds ;;;
  require (0 <? _beneficiaryCount) InvalidBeneficiaryCount ;;;
  require (nonempty _title) EmptyTitle ;;;
  let claimAmount := msg_value tx / _beneficiaryCount in
  require (0 <? claimAmount) InsufficientFundsForCount ;;;
  do totalFunds' <- checked_add (totalFunds st) (msg_value tx) ;
  do scholarshipCounter' <- checked_add (scholarshipCounter st) 1 ;
  Ok {| owner := owner st;
        oracleAddress := oracleAddress st;
        scholarshipCounter := scholarshipCounter';
        totalFunds := totalFunds';
        students := students st;
        studentIdToWallet := studentIdToWallet st;
        scholarships :=
          <[scholarshipCounter st :=
              {| sch_id := scholarshipCounter st;
                 title := _title;
                 description := _description;
                 totalAmount := msg_value tx;
                 remainingAmount := msg_value tx;
                 claimAmount := claimAmount;
                 beneficiaryCount := _beneficiaryCount;
                 claimsProcessed := 0;
                 creator := msg_sender tx;
                 createdAt := block_timestamp tx;
                 active := true |}]> (scholarships st);
        verificationHistory := verificationHistory st;
        claimedAmounts := claimedAmounts st;
        balance := balance st + msg_value tx;
        events := events st ++
                  [ScholarshipCreated (scholarshipCounter st) _title (msg_value tx)
                     claimAmount (msg_sender tx)] |}.

Definition claimScholarship (tx : Tx) (_scholarshipId : N) (st : State)
  : Result State :=
  scholarshipExists _scholarshipId st ;;;
  studentIsEligible (msg_sender tx) st ;;;
  let student := get_student st (msg_sender tx) in
  let scholarship := get_scholarship st _scholarshipId in
  require (negb (hasClaimedScholarship student)) AlreadyClaimed ;;;
  require (claimsProcessed scholarship <? beneficiaryCount scholarship)
          AllFundsDistributed ;;;
  require (claimAmount scholarship <=? remainingAmount scholarship)
          InsufficientScholarshipFunds ;;;
  do claimsProcessed' <- checked_add (claimsProcessed scholarship) 1 ;
  do remainingAmount' <-
     checked_sub (remainingAmount scholarship) (claimAmount scholarship) ;
  do claimed' <-
     checked_add (get_claimed st (msg_sender tx)) (claimAmount scholarship) ;
  require ((claimAmount scholarship <=? balance st) && recipient_accepts tx)
          TransferFailed ;;;
  do totalFunds' <- checked_sub (totalFunds st) (claimAmount scholarship) ;
  Ok {| owner := owner st;
        oracleAddress := oracleAddress st;
        scholarshipCounter := scholarshipCounter st;
        totalFunds := totalFunds';
        students :=
          <[msg_sender tx :=
              {| studentId := studentId student;
                 walletAddress := walletAddress student;
                 applicationHash := applicationHash student;
                 isEligible := isEligible student;
                 hasClaimedScholarship := true;
                 verificationTimestamp := verificationTimestamp student |}]>
            (students st);
        studentIdToWallet := studentIdToWallet st;
        scholarships :=
          <[_scholarshipId :=
              {| sch_id := sch_id scholarship;
                 title := title scholarship;
                 description := description scholarship;
                 totalAmount := totalAmount scholarship;
                 remainingAmount := remainingAmount';
                 claimAmount := claimAmount scholarship;
                 beneficiaryCount := beneficiaryCount scholarship;
                 claimsProcessed := claimsProcessed';
                 creator := creator scholarship;
                 createdAt := createdAt scholarship;
                 active := active scholarship |}]> (scholarships st);
        verificationHistory := verificationHistory st;
        claimedAmounts := <[msg_sender tx := claimed']> (claimedAmounts st);
        balance := balance st - claimAmount scholarship;
        events := events st ++
                  [ScholarshipClaimed (msg_sender tx) _scholarshipId
                     (claimAmount scholarship) (block_timestamp tx)] |}.

(** The withdrawal takes an amount only; it names no scholarship. *)
Definition withdrawUnclaimedFunds (tx : Tx) (_amount : N) (st : State)
  : Result State :=
  onlyOwner tx st ;;;
  require (_amount <=? balance st) InsufficientBalance ;;;
  require (recipient_accepts tx) WithdrawalFailed ;;;
  Ok {| owner := owner st;
        oracleAddress := oracleAddress st;
        scholarshipCounter := scholarshipCounter st;
        totalFunds := totalFunds st;
        students := students st;
        studentIdToWallet := studentIdToWallet st;
        scholarships := scholarships st;
        verificationHistory := verificationHistory st;
        claimedAmounts := claimedAmounts st;
        balance := balance st - _amount;
        events := events st ++ [FundsWithdrawn (owner st) _amount] |}.

(** [receive() external payable]. *)
Definition receive (tx : Tx) (st : State) : Result State :=
  do totalFunds' <- checked_add (totalFunds st) (msg_value tx) ;
  Ok {| owner := owner st;
        oracleAddress := oracleAddress st;
        scholarshipCounter := scholarshipCounter st;
        totalFunds := totalFunds';
        students := students st;
        studentIdToWallet := studentIdToWallet st;
        scholarships := scholarships st;
        verificationHistory := verificationHistory st;
        claimedAmounts := claimedAmounts st;
        balance := balance st + msg_value tx;
        events := events st ++ [FundsDeposited (msg_sender tx) (msg_value tx)] |}.

(** View functions used below. *)
Definition getScholarshipBalance (_id : N) (st : State) : Result N :=
  scholarshipExists _id st ;;;
  Ok (remainingAmount (get_scholarship st _id)).

Definition getContractBalance (st : State) : N := balance st.

(** ** Transactions and reachable states *)

Inductive Call :=
| SetOracleAddress (_newOracle : address)
| RegisterStudent (_studentId : N) (_applicationHash : string)
| VerifyEligibility (_studentAddress : address) (_studentId : N)
    (_isEligible : bool) (_reason : string)
| CreateScholarship (_title : string) (_beneficiaryCount : N) (_description : string)
| ClaimScholarship (_scholarshipId : N)
| WithdrawUnclaimedFunds (_amount : N)
| Receive.

Definition exec (tx : Tx) (c : Call) (st : State) : Result State :=
  match c with
  | SetOracleAddress o => setOracleAddress tx o st
  | RegisterStudent sid h => registerStudent tx sid h st
  | VerifyEligibility a sid e r => verifyEligibility tx a sid e r st
  | CreateScholarship t n d => createScholarship tx t n d st
  | ClaimScholarship i => claimScholarship tx i st
  | WithdrawUnclaimedFunds a => withdrawUnclaimedFunds tx a st
  | Receive => receive tx st
  end.

(** The state after a transaction: a reverted call changes nothing. *)
Definition step (st : State) (txc : Tx * Call) : State :=
  match exec (fst txc) (snd txc) st with
  | Ok st' => st'
  | Revert _ => st
  end.

Definition run (l : list (Tx * Call)) (st : State) : State :=
  fold_left step l st.

(** Ether credited to the contract's address without a call: only the
    balance changes, no code runs and nothing is logged. *)
Definition credit (v : N) (st : State) : State :=
  {| owner := owner st;
     oracleAddress := oracleAddress st;
     scholarshipCounter := scholarshipCounter st;
     totalFunds := totalFunds st;
     students := students st;
     studentIdToWallet := studentIdToWallet st;
     scholarships := scholarships st;
     verificationHistory := verificationHistory st;
     claimedAmounts := claimedAmounts st;
     balance := balance st + v;
     events := events st |}.

Inductive reachable : State → Prop :=
| reachable_deploy deployer :
    deployer ≠ 0 → reachable (constructor deployer)
| reachable_call st tx c st' :
    reachable st → msg_sender tx ≠ 0 → exec tx c st = Ok st' → reachable st'
| reachable_credit st v :
    reachable st → reachable (credit v st).

(** ** Bookkeeping read off the event log *)

(** Total amount paid out by [withdrawUnclaimedFunds] so far. *)
Fixpoint withdrawn_in (evs : list Event) : N :=
  match evs with
  | [] => 0
  | FundsWithdrawn _ amount :: evs' => amount + withdrawn_in evs'
  | _ :: evs' => withdrawn_in evs'
  end.

Definition withdrawn (st : State) : N := withdrawn_in (events st).

(** The identity as the design document words it, each withdrawal being
    charged to the scholarship.  The contract's withdrawal names no
    scholarship; where a single scholarship exists and nothing else was
    paid in, every withdrawn wei is that scholarship's. *)
Definition conservation_with_withdrawals (st : State) (i : N) : Prop :=
  let s := get_scholarship st i in
  remainingAmount s + claimsProcessed s * claimAmount s
    = totalAmount s - withdrawn st ∧
  claimsProcessed s ≤ beneficiaryCount s.

(** The disbursements ([ScholarshipClaimed] events) made to an address. *)
Definition is_claim_by (a : address) (ev : Event) : bool :=
  match ev with
  | ScholarshipClaimed student _ _ _ => student =? a
  | _ => false
  end.

Definition claims_by (a : address) (st : State) : list Event :=
  List.filter (is_claim_by a) (events st).

Definition is_claim_on (a : address) (i : N) (ev : Event) : bool :=
  match ev with
  | ScholarshipClaimed student scholarshipId _ _ =>
      (student =? a) && (scholarshipId =? i)
  | _ => false
  end.

Definition claims_on (a : address) (i : N) (st : State) : list Event :=
  List.filter (is_claim_on a i) (events st).

(** Number of registered identities. *)
Definition accountCount (st : State) : nat := size (studentIdToWallet st).

(** ** Invariant of a scholarship record *)

Definition pool_ok (s : Scholarship) : Prop :=
  0 < beneficiaryCount s ∧
  claimAmount s = totalAmount s / beneficiaryCount s ∧
  0 < claimAmount s ∧
  claimsProcessed s ≤ beneficiaryCount s ∧
  remainingAmount s + claimsProcessed s * claimAmount s = totalAmount s ∧
  active s = true.

Definition pools_inv (st : State) : Prop :=
  (∀ i, i < scholarshipCounter st →
        ∃ s, scholarships st !! i = Some s ∧ pool_ok s ∧ sch_id s = i) ∧
  (∀ i, scholarshipCounter st ≤ i → scholarships st !! i = None).

(** ** Scenarios *)

(** A call from [a] without value, and a call from [a] carrying [v] wei;
    the recipient of any payment accepts it. *)
Definition from (a : address) : Tx := mkTx a 0 1000 true.

Definition paying (a : address) (v : N) : Tx := mkTx a v 1000 true.

(** Address 1 deploys the contract (and so is owner and oracle); 11, 12,
    13 and 14 are student wallets. *)
Definition trace_withdraw : list (Tx * Call) :=
  [ (paying 1 100, CreateScholarship "Merit" 3 "equal shares");
    (from 1, WithdrawUnclaimedFunds 10) ].

Definition st_withdraw : State := run trace_withdraw (constructor 1).

(** Four registered and verified students; three of them claim. *)
Definition trace_three_claims : list (Tx * Call) :=
  [ (paying 1 100, CreateScholarship "Merit" 3 "equal shares");
    (from 11, RegisterStudent 101 "QmA");
    (from 12, RegisterStudent 102 "QmB");
    (from 13, RegisterStudent 103 "QmC");
    (from 14, RegisterStudent 104 "QmD");
    (from 1, VerifyEligibility 11 101 true "GPA: 3.8");
    (from 1, VerifyEligibility 12 102 true "GPA: 3.5");
    (from 1, VerifyEligibility 13 103 true "GPA: 3.4");
    (from 1, VerifyEligibility 14 104 true "GPA: 3.9");
    (from 11, ClaimScholarship 0);
    (from 12, ClaimScholarship 0);
    (from 13, ClaimScholarship 0) ].

Definition st_three_claims : State := run trace_three_claims (constructor 1).

(** After the first claim of [trace_three_claims]: wallet 12 is eligible,
    has not claimed, and two places are left. *)
Definition st_one_claim : State := run (take 10 trace_three_claims) (constructor 1).

(** One scholarship of 100 wei, and a donation of 50 wei on top. *)
Definition trace_donation : list (Tx * Call) :=
  [ (paying 1 100, CreateScholarship "Merit" 3 "equal shares");
    (paying 2 50, Receive) ].

Definition st_funded : State :=
  run [ (paying 1 100, CreateScholarship "Merit" 3 "equal shares") ] (constructor 1).

Definition st_donation : State := run trace_donation (constructor 1).

(** Two funded scholarships; wallet 11 claims the first. *)
Definition trace_two_pools : list (Tx * Call) :=
  [ (paying 1 100, CreateScholarship "Merit" 3 "equal shares");
    (paying 1 60, CreateScholarship "Need" 2 "equal shares");
    (from 11, RegisterStudent 101 "QmA");
    (from 1, VerifyEligibility 11 101 true "GPA: 3.8");
    (from 11, ClaimScholarship 0) ].

Definition st_two_pools : State := run trace_two_pools (constructor 1).

Definition st_before_claim : State := run (take 4 trace_two_pools) (constructor 1).

(** Wallet 11 claims, then the oracle revokes its eligibility. *)
Definition trace_revoked : list (Tx * Call) :=
  [ (paying 1 100, CreateScholarship "Merit" 3 "equal shares");
    (from 11, RegisterStudent 101 "QmA");
    (from 1, VerifyEligibility 11 101 true "GPA: 3.8");
    (from 11, ClaimScholarship 0);
    (from 1, VerifyEligibility 11 101 false "GPA below threshold") ].

Definition st_revoked : State := run trace_revoked (constructor 1).

(** A wallet that is verified under student id 0, claims, and only then
    registers. *)
Definition trace_late_registration : list (Tx * Call) :=
  [ (paying 1 100, CreateScholarship "Merit" 3 "equal shares");
    (from 1, VerifyEligibility 11 0 true "GPA: 3.8");
    (from 11, ClaimScholarship 0);
    (from 11, RegisterStudent 101 "QmA");
    (from 1, VerifyEligibility 11 101 true "GPA: 3.8");
    (from 11, ClaimScholarship 0) ].

(** Wallet 11 registers student id 42. *)
Definition trace_registered : list (Tx * Call) :=
  [ (from 11, RegisterStudent 42 "QmA") ].

Definition st_registered : State := run trace_registered (constructor 1).

(** The oracle verifies wallet 11 under student id 0 before the wallet has
    registered; the wallet registers afterwards. *)
Definition trace_verify_then_register : list (Tx * Call) :=
  [ (from 1, VerifyEligibility 11 0 true "GPA: 3.8");
    (from 11, RegisterStudent 101 "QmA") ].

Definition st_verify_then_register : State :=
  run trace_verify_then_register (constructor 1).

(** ** The remaining view functions and further bookkeeping *)

Definition getStudent (_studentAddress : address) (st : State) : Student :=
  get_student st _studentAddress.

Definition getScholarship (_id : N) (st : State) : Result Scholarship :=
  scholarshipExists _id st ;;;
  Ok (get_scholarship st _id).

Definition getVerificationHistory (_student : address) (st : State)
  : list VerificationRecord :=
  get_history st _student.

Definition getStudentEligibilityStatus (_student : address) (st : State) : bool :=
  isEligible (get_student st _student).

Definition getTotalScholarships (st : State) : N := scholarshipCounter st.

(** Sum of the amounts of the disbursements made to an address. *)
Fixpoint claimed_in (a : address) (evs : list Event) : N :=
  match evs with
  | [] => 0
  | ScholarshipClaimed student _ amount _ :: evs' =>
      (if student =? a then amount else 0) + claimed_in a evs'
  | _ :: evs' => claimed_in a evs'
  end.

(** Number of disbursements made from a scholarship. *)
Fixpoint pool_claims_in (i : N) (evs : list Event) : N :=
  match evs with
  | [] => 0
  | ScholarshipClaimed _ scholarshipId _ _ :: evs' =>
      (if scholarshipId =? i then 1 else 0) + pool_claims_in i evs'
  | _ :: evs' => pool_claims_in i evs'
  end.

(** The status the most recent verification record of an address
    carries; [false] when the address has no record. *)
Definition latest_status (st : State) (a : address) : bool :=
  default false (vr_isEligible <$> last (get_history st a)).

(** Sum of [f 0], ..., [f (n - 1)]. *)
Fixpoint sum_upto (f : N → N) (n : nat) : N :=
  match n with
  | O => 0
  | S k => f (N.of_nat k) + sum_upto f k
  end.

(** What the scholarships together still record as remaining. *)
Definition reserved (st : State) : N :=
  sum_upto (λ i, remainingAmount (get_scholarship st i))
           (N.to_nat (scholarshipCounter st)).

(** Two funded scholarships; wallet 11 claims the second. *)
Definition trace_second_pool_first : list (Tx * Call) :=
  [ (paying 1 100, CreateScholarship "Merit" 3 "equal shares");
    (paying 1 60, CreateScholarship "Need" 2 "equal shares");
    (from 11, RegisterStudent 101 "QmA");
    (from 1, VerifyEligibility 11 101 true "GPA: 3.8");
    (from 11, ClaimScholarship 1) ].

Definition st_second_pool_first : State :=
  run trace_second_pool_first (constructor 1).

(** ** Inversion of the monadic code *)

Lemma require_true b e : require b e = Ok tt ↔ b = true.
Proof. destruct b; simpl; split; congruence. Qed.

Lemma bind_require_ok {B} b e (k : unit → Result B) r :
  bind (require b e) k = Ok r → b = true ∧ k tt = Ok r.
Proof. destruct b; simpl; [done | discriminate]. Qed.

Lemma bind_checked_add_ok {B} a b (k : N → Result B) r :
  bind (checked_add a b) k = Ok r → a + b ≤ MAX_UINT256 ∧ k (a + b) = Ok r.
Proof.
  unfold checked_add. destruct (N.leb_spec (a + b) MAX_UINT256); simpl;
    [done | discriminate].
Qed.

Lemma bind_checked_sub_ok {B} a b (k : N → Result B) r :
  bind (checked_sub a b) k = Ok r → b ≤ a ∧ k (a - b) = Ok r.
Proof.
  unfold checked_sub. destruct (N.leb_spec b a); simpl; [done | discriminate].
Qed.

(** [inv_bind H] walks down a successful run [H : ... = Ok st'] of a
    function body, collecting what each [require] and each checked
    operation established. *)
Ltac inv_bind H :=
  repeat
    (match type of H with
     | bind (onlyOwner _ _) _ = Ok _ => unfold onlyOwner in H
     | bind (onlyOracle _ _) _ = Ok _ => unfold onlyOracle in H
     | bind (scholarshipExists _ _) _ = Ok _ => unfold scholarshipExists in H
     | bind (studentIsEligible _ _) _ = Ok _ => unfold studentIsEligible in H
     | bind (require _ _) _ = Ok _ =>
         let Hb := fresh "Hreq" in apply bind_require_ok in H as [Hb H]
     | bind (checked_add _ _) _ = Ok _ =>
         let Hb := fresh "Hadd" in apply bind_checked_add_ok in H as [Hb H]
     | bind (checked_sub _ _) _ = Ok _ =>
         let Hb := fresh "Hsub" in apply bind_checked_sub_ok in H as [Hb H]
     | (let _ := _ in _) = Ok _ => cbv zeta in H
     end);
  try (injection H as H).

Lemma default_insert {A} (d : A) (m : gmap N A) (k k' : N) (v : A) :
  default d (<[k := v]> m !! k') = if decide (k = k') then v else default d (m !! k').
Proof.
  rewrite lookup_insert. destruct (decide (k = k')); reflexivity.
Qed.

(** ** Effect of each function on the student records *)

Lemma setOracleAddress_students tx o st st' :
  setOracleAddress tx o st = Ok st' → students st' = students st.
Proof. unfold setOracleAddress. intros H. inv_bind H. by subst. Qed.

Lemma createScholarship_students tx t n d st st' :
  createScholarship tx t n d st = Ok st' → students st' = students st.
Proof. unfold createScholarship. intros H. inv_bind H. by subst. Qed.

Lemma withdraw_students tx a st st' :
  withdrawUnclaimedFunds tx a st = Ok st' → students st' = students st.
Proof. unfold withdrawUnclaimedFunds. intros H. inv_bind H. by subst. Qed.

Lemma receive_students tx st st' :
  receive tx st = Ok st' → students st' = students st.
Proof. unfold receive. intros H. inv_bind H. by subst. Qed.

(** Once a wallet carries a student id it keeps that id: only
    [registerStudent] writes the id, and it demands that none is stored. *)
Lemma studentId_kept tx c st st' a :
  exec tx c st = Ok st' →
  studentId (get_student st a) ≠ 0 →
  studentId (get_student st' a) = studentId (get_student st a).
Proof.
  intros H Hid. destruct c; simpl in H.
  - unfold get_student. by rewrite (setOracleAddress_students _ _ _ _ H).
  - unfold registerStudent in H. inv_bind H. subst st'.
    unfold get_student at 1. simpl. rewrite default_insert.
    destruct (decide (msg_sender tx = a)) as [<-|]; [|done].
    apply N.eqb_eq in Hreq1. contradiction.
  - unfold verifyEligibility in H. inv_bind H. subst st'.
    unfold get_student at 1. simpl. rewrite default_insert.
    destruct (decide (_studentAddress = a)) as [<-|]; done.
  - unfold get_student. by rewrite (createScholarship_students _ _ _ _ _ _ H).
  - unfold claimScholarship in H. inv_bind H. subst st'.
    unfold get_student at 1. simpl. rewrite default_insert.
    destruct (decide (msg_sender tx = a)) as [<-|]; done.
  - unfold get_student. by rewrite (withdraw_students _ _ _ _ H).
  - unfold get_student. by rewrite (receive_students _ _ _ H).
Qed.

(** A registered wallet that has claimed stays so: no function clears
    [hasClaimedScholarship] of a wallet that carries a student id. *)
Lemma claimed_flag_kept tx c st st' a :
  exec tx c st = Ok st' →
  studentId (get_student st a) ≠ 0 →
  hasClaimedScholarship (get_student st a) = true →
  hasClaimedScholarship (get_student st' a) = true.
Proof.
  intros H Hid Hc. destruct c; simpl in H.
  - unfold get_student. by rewrite (setOracleAddress_students _ _ _ _ H).
  - unfold registerStudent in H. inv_bind H. subst st'.
    unfold get_student at 1. simpl. rewrite default_insert.
    destruct (decide (msg_sender tx = a)) as [<-|]; [|done].
    apply N.eqb_eq in Hreq1. contradiction.
  - unfold verifyEligibility in H. inv_bind H. subst st'.
    unfold get_student at 1. simpl. rewrite default_insert.
    destruct (decide (_studentAddress = a)) as [<-|]; done.
  - unfold get_student. by rewrite (createScholarship_students _ _ _ _ _ _ H).
  - unfold claimScholarship in H. inv_bind H. subst st'.
    unfold get_student at 1. simpl. rewrite default_insert.
    destruct (decide (msg_sender tx = a)) as [<-|]; done.
  - unfold get_student. by rewrite (withdraw_students _ _ _ _ H).
  - unfold get_student. by rewrite (receive_students _ _ _ H).
Qed.

Lemma step_cases st txc :
  step st txc = st ∨ exec (fst txc) (snd txc) st = Ok (step st txc).
Proof. unfold step. destruct (exec _ _ _); auto. Qed.

Lemma run_snoc l txc st : run (l ++ [txc]) st = step (run l st) txc.
Proof. unfold run. by rewrite fold_left_app. Qed.

(** A property kept by every successful call is kept by every run. *)
Lemma run_preserves (P : State → Prop) :
  (∀ tx c st st', exec tx c st = Ok st' → P st → P st') →
  ∀ l st, P st → P (run l st).
Proof.
  intros Hstep l. induction l as [|[tx c] l IH]; intros st HP; [done|].
  simpl. apply IH. destruct (step_cases st (tx, c)) as [-> | He]; [done|].
  eapply Hstep; eauto.
Qed.

Lemma reachable_run l st :
  reachable st → Forall (λ txc, msg_sender (fst txc) ≠ 0) l → reachable (run l st).
Proof.
  intros Hr Hl. revert st Hr. induction Hl as [|[tx c] l Hx Hl IH]; intros st Hr; [done|].
  simpl. apply IH. destruct (step_cases st (tx, c)) as [-> | He]; [done|].
  eapply reachable_call; eauto.
Qed.

(** ** The scholarship invariant holds in every reachable state *)

Lemma pools_inv_constructor deployer : pools_inv (constructor deployer).
Proof.
  split; intros i Hi; simpl in *.
  - lia.
  - apply lookup_empty.
Qed.

Lemma pools_inv_create tx t n d st st' :
  createScholarship tx t n d st = Ok st' → pools_inv st → pools_inv st'.
Proof.
  unfold createScholarship. intros H [Hlt Hge]. inv_bind H. subst st'.
  apply N.ltb_lt in Hreq0, Hreq1, Hreq3.
  split; simpl; intros i Hi.
  - destruct (decide (scholarshipCounter st = i)) as [<-|Hne].
    + eexists. rewrite lookup_insert_eq. split; [reflexivity|].
      split; [|reflexivity]. unfold pool_ok; simpl. repeat split; try done; lia.
    + rewrite lookup_insert_ne by done. apply Hlt. lia.
  - rewrite lookup_insert_ne by lia. apply Hge. lia.
Qed.

Lemma pools_inv_claim tx i st st' :
  claimScholarship tx i st = Ok st' → pools_inv st → pools_inv st'.
Proof.
  unfold claimScholarship. intros H [Hlt Hge]. inv_bind H. subst st'.
  apply andb_true_iff in Hreq as [Hi _]. apply N.ltb_lt in Hi, Hreq2.
  apply N.leb_le in Hreq3.
  split; simpl; intros j Hj.
  - destruct (decide (i = j)) as [<-|Hne].
    + eexists. rewrite lookup_insert_eq. split; [reflexivity|].
      destruct (Hlt i Hi) as (s & Hs & Hok & Hid).
      unfold get_scholarship in *. rewrite Hs in *. simpl in *.
      split; [|done]. destruct Hok as (H1 & H2 & H3 & H4 & H5 & H6).
      unfold pool_ok; simpl. repeat split; try done; lia.
    + rewrite lookup_insert_ne by done. by apply Hlt.
  - rewrite lookup_insert_ne.
    + by apply Hge.
    + intros ->. lia.
Qed.

Lemma pools_inv_step tx c st st' :
  exec tx c st = Ok st' → pools_inv st → pools_inv st'.
Proof.
  intros H Hinv. destruct c; simpl in H.
  - unfold setOracleAddress in H. inv_bind H. by subst.
  - unfold registerStudent in H. inv_bind H. by subst.
  - unfold verifyEligibility in H. inv_bind H. by subst.
  - eapply pools_inv_create; eauto.
  - eapply pools_inv_claim; eauto.
  - unfold withdrawUnclaimedFunds in H. inv_bind H. by subst.
  - unfold receive in H. inv_bind H. by subst.
Qed.

Lemma reachable_pools_inv st : reachable st → pools_inv st.
Proof.
  induction 1 as [d Hd | st tx c st' Hr IH Hs He | st v Hr IH].
  - apply pools_inv_constructor.
  - eapply pools_inv_step; eauto.
  - exact IH.
Qed.

Lemma reachable_pool_ok st i :
  reachable st → i < scholarshipCounter st → pool_ok (get_scholarship st i).
Proof.
  intros Hr Hi. destruct (reachable_pools_inv st Hr) as [Hlt _].
  destruct (Hlt i Hi) as (s & Hs & Hok & _).
  unfold get_scholarship. by rewrite Hs.
Qed.

(** With a free slot left, the remaining amount covers one more share. *)
Lemma pool_ok_covers_share s :
  pool_ok s → claimsProcessed s < beneficiaryCount s →
  claimAmount s ≤ remainingAmount s.
Proof.
  intros (H1 & H2 & H3 & H4 & H5 & H6) Hlt.
  assert (Hmul : beneficiaryCount s * claimAmount s ≤ totalAmount s).
  { rewrite H2. apply N.Div0.mul_div_le. }
  nia.
Qed.

(** ** Registered identities and disbursements along a run *)

(** A student id that is mapped to a wallet stays mapped to it. *)
Lemma wallet_kept tx c st st' sid :
  exec tx c st = Ok st' →
  get_wallet st sid ≠ 0 →
  get_wallet st' sid = get_wallet st sid.
Proof.
  intros H Hw. destruct c; simpl in H.
  - unfold setOracleAddress in H. inv_bind H. by subst.
  - unfold registerStudent in H. inv_bind H. subst st'.
    unfold get_wallet at 1. simpl. rewrite default_insert.
    destruct (decide (_studentId = sid)) as [<-|]; [|done].
    apply N.eqb_eq in Hreq0. contradiction.
  - unfold verifyEligibility in H. inv_bind H. by subst.
  - unfold createScholarship in H. inv_bind H. by subst.
  - unfold claimScholarship in H. inv_bind H. by subst.
  - unfold withdrawUnclaimedFunds in H. inv_bind H. by subst.
  - unfold receive in H. inv_bind H. by subst.
Qed.

(** A wallet whose flag is set receives no further disbursement. *)
Lemma claims_by_kept tx c st st' a :
  exec tx c st = Ok st' →
  hasClaimedScholarship (get_student st a) = true →
  claims_by a st' = claims_by a st.
Proof.
  intros H Hc. unfold claims_by. destruct c; simpl in H.
  - unfold setOracleAddress in H. inv_bind H. subst st'. simpl.
    rewrite List.filter_app. simpl. by rewrite app_nil_r.
  - unfold registerStudent in H. inv_bind H. subst st'. simpl.
    rewrite List.filter_app. simpl. by rewrite app_nil_r.
  - unfold verifyEligibility in H. inv_bind H. subst st'. simpl.
    rewrite List.filter_app. simpl. by rewrite app_nil_r.
  - unfold createScholarship in H. inv_bind H. subst st'. simpl.
    rewrite List.filter_app. simpl. by rewrite app_nil_r.
  - unfold claimScholarship in H. inv_bind H. subst st'. simpl.
    rewrite List.filter_app. simpl.
    destruct (N.eqb_spec (msg_sender tx) a) as [Heq|_].
    + rewrite Heq, Hc in Hreq1. discriminate.
    + by rewrite app_nil_r.
  - unfold withdrawUnclaimedFunds in H. inv_bind H. subst st'. simpl.
    rewrite List.filter_app. simpl. by rewrite app_nil_r.
  - unfold receive in H. inv_bind H. subst st'. simpl.
    rewrite List.filter_app. simpl. by rewrite app_nil_r.
Qed.

(** The verification history of every address only grows at its end. *)
Lemma history_append_only tx c st st' a :
  exec tx c st = Ok st' → get_history st a `prefix_of` get_history st' a.
Proof.
  intros H. destruct c; simpl in H.
  - unfold setOracleAddress in H. inv_bind H. by subst.
  - unfold registerStudent in H. inv_bind H. by subst.
  - unfold verifyEligibility in H. inv_bind H. subst st'.
    unfold get_history at 2. simpl. rewrite default_insert.
    destruct (decide (_studentAddress = a)) as [<-|]; [|done].
    by apply prefix_app_r.
  - unfold createScholarship in H. inv_bind H. by subst.
  - unfold claimScholarship in H. inv_bind H. by subst.
  - unfold withdrawUnclaimedFunds in H. inv_bind H. by subst.
  - unfold receive in H. inv_bind H. by subst.
Qed.

(** A successful [verifyEligibility] adds exactly one record, carrying the
    status it was called with, and sets the student's status to it. *)
Lemma verifyEligibility_appends tx a sid e r st st' :
  verifyEligibility tx a sid e r st = Ok st' →
  get_history st' a =
    get_history st a ++ [mkVerificationRecord a sid e r (block_timestamp tx) (msg_sender tx)] ∧
  isEligible (get_student st' a) = e.
Proof.
  unfold verifyEligibility. intros H. inv_bind H. subst st'.
  unfold get_history, get_student. simpl.
  rewrite !default_insert. by rewrite !decide_True.
Qed.

(** ** The scenarios are reachable *)

Ltac senders_nonzero := repeat constructor; simpl; discriminate.

Lemma st_withdraw_reachable : reachable st_withdraw.
Proof.
  apply reachable_run; [by apply reachable_deploy | senders_nonzero].
Qed.

Lemma st_three_claims_reachable : reachable st_three_claims.
Proof.
  apply reachable_run; [by apply reachable_deploy | senders_nonzero].
Qed.

(** Scenario A of the design document: 100 wei for 3 beneficiaries gives
    shares of 33; after three claims 1 wei remains and a fourth claim is
    turned down because all places are taken. *)
Example scenario_A :
  claimAmount (get_scholarship st_three_claims 0) = 33 ∧
  remainingAmount (get_scholarship st_three_claims 0) = 1 ∧
  claimsProcessed (get_scholarship st_three_claims 0) = 3 ∧
  claimScholarship (from 14) 0 st_three_claims = Revert AllFundsDistributed.
Proof. vm_compute. done. Qed.

(** ** C1: conservation *)

(** C1, counterexample.  The owner funds one scholarship with 100 wei and
    withdraws 10: the contract holds 90, the only scholarship still
    records 100 remaining, so remaining + processed * share is 100 and
    not 100 - 10. *)
Lemma C1_conservation_counterexample :
  reachable st_withdraw ∧
  scholarshipCounter st_withdraw = 1 ∧
  withdrawn st_withdraw = 10 ∧
  balance st_withdraw = 90 ∧
  remainingAmount (get_scholarship st_withdraw 0) = 100 ∧
  ¬ conservation_with_withdrawals st_withdraw 0.
Proof.
  split; [apply st_withdraw_reachable|].
  repeat (split; [vm_compute; reflexivity|]).
  unfold conservation_with_withdrawals. vm_compute. intros [H _]. discriminate H.
Qed.

(** C1, as the contract has it.  In every reachable state and for every
    scholarship, remainingAmount + claimsProcessed * claimAmount equals
    totalAmount (withdrawals do not enter the identity: they never touch a
    scholarship record), and claimsProcessed is at most beneficiaryCount. *)
Theorem C1_conservation (st : State) (i : N) :
  reachable st →
  i < scholarshipCounter st →
  let s := get_scholarship st i in
  remainingAmount s + claimsProcessed s * claimAmount s = totalAmount s ∧
  claimsProcessed s ≤ beneficiaryCount s.
Proof.
  intros Hr Hi s. destruct (reachable_pool_ok st i Hr Hi) as (_ & _ & _ & H4 & H5 & _).
  done.
Qed.

Lemma C1_conservation_witness :
  let s := get_scholarship st_three_claims 0 in
  remainingAmount s + claimsProcessed s * claimAmount s = totalAmount s ∧
  claimsProcessed s ≤ beneficiaryCount s.
Proof.
  apply (C1_conservation st_three_claims 0).
  - apply st_three_claims_reachable.
  - vm_compute. reflexivity.
Defined.

(** ** C5: the insufficient-funds branch *)

(** C5.  In every reachable state, when the scholarship exists and is
    active, the caller is eligible and has not claimed, and a place is
    left (claimsProcessed < beneficiaryCount), then remainingAmount is at
    least claimAmount; and no call of claimScholarship in a reachable
    state reverts with "Insufficient scholarship funds". *)
Theorem C5_insufficient_funds_unreachable (st : State) (tx : Tx) (i : N) :
  reachable st →
  (i < scholarshipCounter st →
   active (get_scholarship st i) = true →
   isEligible (get_student st (msg_sender tx)) = true →
   hasClaimedScholarship (get_student st (msg_sender tx)) = false →
   claimsProcessed (get_scholarship st i) < beneficiaryCount (get_scholarship st i) →
   claimAmount (get_scholarship st i) ≤ remainingAmount (get_scholarship st i)) ∧
  claimScholarship tx i st ≠ Revert InsufficientScholarshipFunds.
Proof.
  intros Hr. split.
  - intros Hi _ _ _ Hlt. apply pool_ok_covers_share; [|done].
    by apply reachable_pool_ok.
  - unfold claimScholarship, scholarshipExists, studentIsEligible.
    destruct (i <? scholarshipCounter st) eqn:Hi; simpl; [|discriminate].
    destruct (active (get_scholarship st i)); simpl; [|discriminate].
    destruct (isEligible _); simpl; [|discriminate].
    destruct (hasClaimedScholarship _); simpl; [discriminate|].
    destruct (N.ltb_spec (claimsProcessed (get_scholarship st i))
                (beneficiaryCount (get_scholarship st i))) as [Hlt|]; simpl;
      [|discriminate].
    apply N.ltb_lt in Hi.
    pose proof (pool_ok_covers_share _ (reachable_pool_ok st i Hr Hi) Hlt) as Hle.
    apply N.leb_le in Hle. rewrite Hle. simpl.
    unfold checked_add, checked_sub, require. rewrite Hle.
    repeat (match goal with |- context [if ?b then _ else _] => destruct b end;
            simpl; try discriminate).
Qed.

Lemma C5_insufficient_funds_unreachable_witness :
  claimAmount (get_scholarship st_one_claim 0)
    ≤ remainingAmount (get_scholarship st_one_claim 0) ∧
  claimScholarship (from 12) 0 st_one_claim ≠ Revert InsufficientScholarshipFunds.
Proof.
  assert (Hr : reachable st_one_claim).
  { apply reachable_run; [by apply reachable_deploy | senders_nonzero]. }
  destruct (C5_insufficient_funds_unreachable st_one_claim (from 12) 0 Hr) as [H1 H2].
  split; [|exact H2].
  apply H1; vm_compute; reflexivity.
Defined.

(** ** C4: the order of the checks of claimScholarship *)

(** C4, counterexample.  Wallet 11 has claimed scholarship 1 and never
    scholarship 0.  For scholarship 0 every precondition as the design
    document words it holds: it exists, is active, the wallet is eligible, the
    wallet has not claimed this scholarship (no disbursement from it),
    places are left and the funds cover a share.  No check fails, yet the
    call is turned down with "Student has already claimed scholarship":
    check (3) is not about this scholarship. *)
Lemma C4_check_three_counterexample :
  0 < scholarshipCounter st_second_pool_first ∧
  active (get_scholarship st_second_pool_first 0) = true ∧
  isEligible (get_student st_second_pool_first 11) = true ∧
  claims_on 11 0 st_second_pool_first = [] ∧
  claims_on 11 1 st_second_pool_first = [ScholarshipClaimed 11 1 30 1000] ∧
  claimsProcessed (get_scholarship st_second_pool_first 0)
    < beneficiaryCount (get_scholarship st_second_pool_first 0) ∧
  claimAmount (get_scholarship st_second_pool_first 0)
    ≤ remainingAmount (get_scholarship st_second_pool_first 0) ∧
  claimAmount (get_scholarship st_second_pool_first 0) ≤ balance st_second_pool_first ∧
  claimScholarship (from 11) 0 st_second_pool_first = Revert AlreadyClaimed.
Proof. repeat split; vm_compute; done. Qed.

(** C4, as the contract has it.  claimScholarship checks, in this order,
    and reports the first check that fails: (1) the scholarship id is
    below the counter and the scholarship is active, else "Scholarship
    does not exist"; (2) the caller is eligible, else "Student is not
    verified as eligible"; (3) the caller's hasClaimedScholarship flag,
    one flag per wallet whatever the scholarship, is clear, else "Student
    has already claimed scholarship"; (4) claimsProcessed <
    beneficiaryCount, else "All funds have been distributed";
    (5) remainingAmount >= claimAmount, else "Insufficient scholarship
    funds".  When all five hold the call can only fail in the transfer or
    in a checked arithmetic operation. *)
Theorem C4_claim_check_order (tx : Tx) (i : N) (st : State) :
  let sch := get_scholarship st i in
  let stu := get_student st (msg_sender tx) in
  let found := i < scholarshipCounter st ∧ active sch = true in
  (¬ found → claimScholarship tx i st = Revert ScholarshipDoesNotExist) ∧
  (found → isEligible stu = false →
   claimScholarship tx i st = Revert StudentNotEligible) ∧
  (found → isEligible stu = true → hasClaimedScholarship stu = true →
   claimScholarship tx i st = Revert AlreadyClaimed) ∧
  (found → isEligible stu = true → hasClaimedScholarship stu = false →
   beneficiaryCount sch ≤ claimsProcessed sch →
   claimScholarship tx i st = Revert AllFundsDistributed) ∧
  (found → isEligible stu = true → hasClaimedScholarship stu = false →
   claimsProcessed sch < beneficiaryCount sch →
   remainingAmount sch < claimAmount sch →
   claimScholarship tx i st = Revert InsufficientScholarshipFunds) ∧
  (found → isEligible stu = true → hasClaimedScholarship stu = false →
   claimsProcessed sch < beneficiaryCount sch →
   claimAmount sch ≤ remainingAmount sch →
   ∀ e, claimScholarship tx i st = Revert e → e = Panic ∨ e = TransferFailed).
Proof.
  intros sch stu found. subst sch stu found.
  unfold claimScholarship, scholarshipExists, studentIsEligible.
  repeat split.
  - intros Hnf.
    destruct (N.ltb_spec i (scholarshipCounter st)) as [Hi|]; simpl; [|done].
    destruct (active (get_scholarship st i)); simpl; [|done].
    exfalso. apply Hnf. done.
  - intros [Hi Ha] He. apply N.ltb_lt in Hi. by rewrite Hi, Ha, He.
  - intros [Hi Ha] He Hc. apply N.ltb_lt in Hi. by rewrite Hi, Ha, He, Hc.
  - intros [Hi Ha] He Hc Hge. apply N.ltb_lt in Hi. apply N.ltb_ge in Hge.
    by rewrite Hi, Ha, He, Hc, Hge.
  - intros [Hi Ha] He Hc Hlt Hrem. apply N.ltb_lt in Hi, Hlt. apply N.leb_gt in Hrem.
    by rewrite Hi, Ha, He, Hc, Hlt, Hrem.
  - intros [Hi Ha] He Hc Hlt Hrem e. apply N.ltb_lt in Hi, Hlt. apply N.leb_le in Hrem.
    rewrite Hi, Ha, He, Hc, Hlt, Hrem. simpl.
    unfold checked_add, checked_sub, require. rewrite Hrem.
    repeat (match goal with |- context [if ?b then _ else _] => destruct b end;
            simpl; try discriminate);
      intros [= <-]; auto.
Qed.

(** The example of the claim: wallet 15 was never verified, and all three
    places of scholarship 0 are taken; the call is turned down for the
    missing eligibility, not for the exhausted capacity. *)
Lemma C4_claim_check_order_witness :
  beneficiaryCount (get_scholarship st_three_claims 0)
    ≤ claimsProcessed (get_scholarship st_three_claims 0) ∧
  claimScholarship (from 15) 0 st_three_claims = Revert StudentNotEligible.
Proof.
  split; [vm_compute; discriminate|].
  apply (C4_claim_check_order (from 15) 0 st_three_claims).
  - split; vm_compute; reflexivity.
  - vm_compute. reflexivity.
Defined.

(** ** C10: residual withdrawal *)

(** C10, counterexample.  With one scholarship of 100 wei, the owner's
    withdrawal of 10 succeeds and the scholarship's remainingAmount is
    still 100, not 90.  And with 50 wei donated on top, a withdrawal of
    120 wei, more than the 100 that remain in the scholarship, succeeds. *)
Lemma C10_withdraw_counterexample :
  (∃ st', withdrawUnclaimedFunds (from 1) 10 st_funded = Ok st' ∧
          remainingAmount (get_scholarship st_funded 0) = 100 ∧
          remainingAmount (get_scholarship st' 0) = 100 ∧
          remainingAmount (get_scholarship st' 0) ≠ 100 - 10) ∧
  (∃ st', withdrawUnclaimedFunds (from 1) 120 st_donation = Ok st' ∧
          remainingAmount (get_scholarship st_donation 0) = 100).
Proof.
  split; eexists; (split; [vm_compute; reflexivity|]).
  - repeat split; vm_compute; done.
  - vm_compute. reflexivity.
Qed.

(** C10, as the contract has it.  A successful withdrawUnclaimedFunds is
    a call by the owner for an amount the contract's balance covers; it
    lowers the contract's balance by exactly that amount and leaves every
    scholarship record (remainingAmount, beneficiaryCount,
    claimsProcessed, totalAmount, claimAmount) and totalFunds unchanged.
    A withdrawal by the owner of more than the contract's balance fails
    with "Insufficient balance". *)
Theorem C10_withdraw_frame (tx : Tx) (_amount : N) (st : State) :
  (∀ st', withdrawUnclaimedFunds tx _amount st = Ok st' →
     msg_sender tx = owner st ∧
     _amount ≤ balance st ∧
     balance st' = balance st - _amount ∧
     scholarships st' = scholarships st ∧
     scholarshipCounter st' = scholarshipCounter st ∧
     totalFunds st' = totalFunds st ∧
     (∀ i, get_scholarship st' i = get_scholarship st i)) ∧
  (msg_sender tx = owner st → balance st < _amount →
   withdrawUnclaimedFunds tx _amount st = Revert InsufficientBalance).
Proof.
  split.
  - unfold withdrawUnclaimedFunds. intros st' H. inv_bind H. subst st'. simpl.
    apply N.eqb_eq in Hreq. apply N.leb_le in Hreq0. done.
  - intros Ho Hlt. unfold withdrawUnclaimedFunds, onlyOwner.
    apply N.eqb_eq in Ho. apply N.leb_gt in Hlt. by rewrite Ho, Hlt.
Qed.

Lemma C10_withdraw_frame_witness :
  (balance st_withdraw = balance st_funded - 10 ∧
   get_scholarship st_withdraw 0 = get_scholarship st_funded 0) ∧
  withdrawUnclaimedFunds (from 1) 101 st_funded = Revert InsufficientBalance.
Proof.
  destruct (C10_withdraw_frame (from 1) 10 st_funded) as [Hok _].
  destruct (C10_withdraw_frame (from 1) 101 st_funded) as [_ Hfail].
  split.
  - destruct (Hok st_withdraw) as (_ & _ & Hb & _ & _ & _ & Hs).
    + vm_compute. reflexivity.
    + split; [exact Hb | exact (Hs 0)].
  - apply Hfail; vm_compute; reflexivity.
Defined.

(** ** C3 and C2: the claimed flag *)

(** A caller whose flag is set is turned down, whatever the scholarship:
    by the first two checks if they fail, by the flag otherwise. *)
Lemma claim_with_flag_set tx i st :
  hasClaimedScholarship (get_student st (msg_sender tx)) = true →
  (∃ e, claimScholarship tx i st = Revert e ∧
        (e = ScholarshipDoesNotExist ∨ e = StudentNotEligible ∨ e = AlreadyClaimed)) ∧
  (i < scholarshipCounter st → active (get_scholarship st i) = true →
   isEligible (get_student st (msg_sender tx)) = true →
   claimScholarship tx i st = Revert AlreadyClaimed).
Proof.
  intros Hc. unfold claimScholarship, scholarshipExists, studentIsEligible.
  split.
  - destruct ((i <? scholarshipCounter st) && active (get_scholarship st i));
      simpl; [|eauto].
    destruct (isEligible _); simpl; [|eauto].
    rewrite Hc. simpl. eauto.
  - intros Hi Ha He. apply N.ltb_lt in Hi. by rewrite Hi, Ha, He, Hc.
Qed.

(** What a successful claim leaves in the caller's record. *)
Lemma claim_sets_flag tx i st st' :
  claimScholarship tx i st = Ok st' →
  hasClaimedScholarship (get_student st' (msg_sender tx)) = true ∧
  isEligible (get_student st' (msg_sender tx)) = true ∧
  studentId (get_student st' (msg_sender tx)) = studentId (get_student st (msg_sender tx)).
Proof.
  unfold claimScholarship. intros H. inv_bind H. subst st'.
  unfold get_student in *. simpl. rewrite !default_insert, !decide_True by done.
  done.
Qed.

(** C3, counterexample.  Wallet 11 has claimed scholarship 0.  Scholarship
    1 exists and is active, the wallet is eligible, it never received a
    disbursement from scholarship 1, both places of scholarship 1 are
    free and its funds (and the contract's balance) cover a share; the
    claim on scholarship 1 fails with "Student has already claimed
    scholarship". *)
Lemma C3_per_pool_flag_counterexample :
  claims_on 11 0 st_two_pools = [ScholarshipClaimed 11 0 33 1000] ∧
  1 < scholarshipCounter st_two_pools ∧
  active (get_scholarship st_two_pools 1) = true ∧
  isEligible (get_student st_two_pools 11) = true ∧
  claims_on 11 1 st_two_pools = [] ∧
  claimsProcessed (get_scholarship st_two_pools 1)
    < beneficiaryCount (get_scholarship st_two_pools 1) ∧
  claimAmount (get_scholarship st_two_pools 1)
    ≤ remainingAmount (get_scholarship st_two_pools 1) ∧
  claimAmount (get_scholarship st_two_pools 1) ≤ balance st_two_pools ∧
  claimScholarship (from 11) 1 st_two_pools = Revert AlreadyClaimed.
Proof. repeat split; vm_compute; done. Qed.

(** C3, as the contract has it.  The claimed flag is one boolean per
    wallet, not one per (wallet, scholarship).  A successful claim on
    scholarship A by a wallet that carries a student id sets the wallet's
    hasClaimedScholarship and leaves it eligible; after any further
    transactions the flag is still set, and a claim by the same wallet on
    any scholarship B, A or another, that exists and is active fails with
    "Student has already claimed scholarship" whenever the wallet is
    still eligible. *)
Theorem C3_flag_per_wallet (tx : Tx) (A : N) (st st' : State)
    (l : list (Tx * Call)) (tx' : Tx) (B : N) :
  studentId (get_student st (msg_sender tx)) ≠ 0 →
  claimScholarship tx A st = Ok st' →
  msg_sender tx' = msg_sender tx →
  hasClaimedScholarship (get_student st' (msg_sender tx)) = true ∧
  isEligible (get_student st' (msg_sender tx)) = true ∧
  hasClaimedScholarship (get_student (run l st') (msg_sender tx)) = true ∧
  (B < scholarshipCounter (run l st') →
   active (get_scholarship (run l st') B) = true →
   isEligible (get_student (run l st') (msg_sender tx)) = true →
   claimScholarship tx' B (run l st') = Revert AlreadyClaimed).
Proof.
  intros Hid H Hs. destruct (claim_sets_flag _ _ _ _ H) as (Hc & He & Hid1).
  assert (HP : studentId (get_student (run l st') (msg_sender tx)) ≠ 0 ∧
               hasClaimedScholarship (get_student (run l st') (msg_sender tx)) = true).
  { apply (run_preserves
             (λ s, studentId (get_student s (msg_sender tx)) ≠ 0 ∧
                   hasClaimedScholarship (get_student s (msg_sender tx)) = true)).
    - intros tx0 c s s' Hx [P1 P2]. split.
      + by rewrite (studentId_kept _ _ _ _ _ Hx P1).
      + by apply (claimed_flag_kept _ _ _ _ _ Hx P1 P2).
    - split; [congruence | done]. }
  destruct HP as [_ Hc2].
  repeat split; try done.
  intros Hi Ha Hel. apply claim_with_flag_set; rewrite ?Hs; done.
Qed.

(** After wallet 11 claimed scholarship 0 in [st_two_pools], a donation
    arrives and the oracle verifies the wallet once more; the wallet then
    tries scholarship 1. *)
Lemma C3_flag_per_wallet_witness :
  let l := [ (paying 2 50, Receive);
             (from 1, VerifyEligibility 11 101 true "GPA: 3.9") ] in
  hasClaimedScholarship (get_student st_two_pools 11) = true ∧
  hasClaimedScholarship (get_student (run l st_two_pools) 11) = true ∧
  claimScholarship (from 11) 1 (run l st_two_pools) = Revert AlreadyClaimed.
Proof.
  intros l.
  destruct (C3_flag_per_wallet (from 11) 0 st_before_claim st_two_pools l (from 11) 1)
    as (Hc & _ & Hc2 & Hb).
  - vm_compute. discriminate.
  - vm_compute. reflexivity.
  - reflexivity.
  - split; [exact Hc|]. split; [exact Hc2|]. apply Hb; vm_compute; reflexivity.
Defined.

(** C2, counterexample.  Wallet 11 claims scholarship 0, then the oracle
    records it as not eligible.  The wallet's next claim on scholarship 0
    fails, but with "Student is not verified as eligible", not with
    "Student has already claimed scholarship": eligibility is checked
    before the flag. *)
Lemma C2_second_claim_counterexample :
  claims_on 11 0 st_revoked = [ScholarshipClaimed 11 0 33 1000] ∧
  claimScholarship (from 11) 0 st_revoked = Revert StudentNotEligible ∧
  kind StudentNotEligible ≠ KAlreadyClaimed.
Proof. repeat split; vm_compute; done. Qed.

(** C2, as the contract has it.  Once a wallet that carries a student id
    has claimed, then after any further transactions every claim by that
    wallet, on the same or on any other scholarship, fails: with
    "Student has already claimed scholarship" when the scholarship
    exists, is active and the wallet is still eligible, and with
    "Scholarship does not exist" or "Student is not verified as
    eligible" otherwise.  The failing call leaves the state (storage,
    balance and log) as it was, and no later transaction adds a
    disbursement to that wallet. *)
Theorem C2_claim_once (tx : Tx) (A : N) (st st1 : State)
    (l : list (Tx * Call)) (tx' : Tx) (B : N) :
  studentId (get_student st (msg_sender tx)) ≠ 0 →
  claimScholarship tx A st = Ok st1 →
  msg_sender tx' = msg_sender tx →
  let st2 := run l st1 in
  (∃ e, claimScholarship tx' B st2 = Revert e ∧
        (e = ScholarshipDoesNotExist ∨ e = StudentNotEligible ∨ e = AlreadyClaimed)) ∧
  (B < scholarshipCounter st2 → active (get_scholarship st2 B) = true →
   isEligible (get_student st2 (msg_sender tx)) = true →
   claimScholarship tx' B st2 = Revert AlreadyClaimed) ∧
  step st2 (tx', ClaimScholarship B) = st2 ∧
  claims_by (msg_sender tx) st2 = claims_by (msg_sender tx) st1.
Proof.
  intros Hid H Hs st2.
  destruct (claim_sets_flag _ _ _ _ H) as (Hc & _ & Hid1).
  set (a := msg_sender tx) in *.
  assert (HP : studentId (get_student st2 a) ≠ 0 ∧
               hasClaimedScholarship (get_student st2 a) = true ∧
               claims_by a st2 = claims_by a st1).
  { subst st2.
    apply (run_preserves
             (λ s, studentId (get_student s a) ≠ 0 ∧
                   hasClaimedScholarship (get_student s a) = true ∧
                   claims_by a s = claims_by a st1)).
    - intros tx0 c s s' He (P1 & P2 & P3). repeat split.
      + by rewrite (studentId_kept _ _ _ _ _ He P1).
      + by apply (claimed_flag_kept _ _ _ _ _ He P1 P2).
      + by rewrite (claims_by_kept _ _ _ _ _ He P2).
    - repeat split; [congruence | done]. }
  destruct HP as (_ & Hc2 & Hev).
  assert (Hc' : hasClaimedScholarship (get_student st2 (msg_sender tx')) = true)
    by (by rewrite Hs).
  destruct (claim_with_flag_set tx' B st2 Hc') as [(e & He & Hk) Hexact].
  repeat split.
  - eauto.
  - intros Hi Ha Hel. apply Hexact; rewrite ?Hs; done.
  - unfold step. simpl. by rewrite He.
  - done.
Qed.

(** After wallet 11 claimed scholarship 0 in [st_two_pools], the owner
    withdraws 5 wei and wallet 11 tries scholarship 1. *)
Lemma C2_claim_once_witness :
  let st2 := run [(from 1, WithdrawUnclaimedFunds 5)] st_two_pools in
  claimScholarship (from 11) 1 st2 = Revert AlreadyClaimed ∧
  step st2 (from 11, ClaimScholarship 1) = st2 ∧
  claims_by 11 st2 = claims_by 11 st_two_pools.
Proof.
  intros st2.
  destruct (C2_claim_once (from 11) 0 st_before_claim st_two_pools
              [(from 1, WithdrawUnclaimedFunds 5)] (from 11) 1)
    as (_ & Hexact & Hstep & Hev).
  - vm_compute. discriminate.
  - vm_compute. reflexivity.
  - reflexivity.
  - split; [|split; [exact Hstep | exact Hev]].
    apply Hexact; vm_compute; reflexivity.
Defined.

(** The flag does not survive a registration made after the claim: a
    wallet verified under student id 0 before it registered can claim,
    register, be verified again, and claim the same scholarship a second
    time. *)

Example double_claim_after_late_registration :
  claims_on 11 0 (run trace_late_registration (constructor 1)) =
    [ScholarshipClaimed 11 0 33 1000; ScholarshipClaimed 11 0 33 1000] ∧
  balance (run trace_late_registration (constructor 1)) = 34.
Proof. vm_compute. done. Qed.

(** ** C7: duplicate registrations *)

(** What a successful registration leaves behind. *)
Lemma register_binds tx sid h st st' :
  registerStudent tx sid h st = Ok st' →
  0 < sid ∧
  get_wallet st' sid = msg_sender tx ∧
  studentId (get_student st' (msg_sender tx)) = sid.
Proof.
  unfold registerStudent. intros H. inv_bind H. subst st'.
  apply N.ltb_lt in Hreq.
  unfold get_wallet, get_student in *. simpl.
  rewrite !default_insert, !decide_True by done. done.
Qed.

(** Scenario C of the design document: a second registration of student
    id 42, from another wallet, fails with "Student ID already
    registered" and the number of registered identities stays at 1. *)
Example scenario_C :
  registerStudent (from 12) 42 "QmB" st_registered = Revert StudentIdAlreadyRegistered ∧
  accountCount st_registered = 1%nat ∧
  accountCount (step st_registered (from 12, RegisterStudent 42 "QmB")) = 1%nat.
Proof. vm_compute. done. Qed.

(** C7, counterexample.  Wallet 11 is bound to student id 42.  A second
    call from wallet 11, again with id 42, fails with "Student ID already
    registered" (the id is checked before the wallet), and a call from
    wallet 11 with id 0 fails with "Invalid student ID"; neither fails
    with "Wallet already registered". *)
Lemma C7_duplicate_handle_counterexample :
  studentId (get_student st_registered 11) = 42 ∧
  registerStudent (from 11) 42 "QmA" st_registered = Revert StudentIdAlreadyRegistered ∧
  kind StudentIdAlreadyRegistered ≠ KDuplicateHandle ∧
  registerStudent (from 11) 0 "QmA" st_registered = Revert InvalidStudentId ∧
  kind InvalidStudentId ≠ KDuplicateHandle.
Proof. repeat split; vm_compute; done. Qed.

(** C7, as the contract has it.  After a successful registration of
    student id [sid] from a wallet, and after any further transactions:
    every registration with id [sid], from any wallet, fails with
    "Student ID already registered"; every registration from the bound
    wallet fails, with "Wallet already registered" when its id is
    non-zero and not yet registered, and with "Invalid student ID" or
    "Student ID already registered" otherwise (these are checked first);
    and a failing registration leaves the state, and so the number of
    registered identities, unchanged. *)
Theorem C7_register_duplicates (tx0 : Tx) (sid : N) (h0 : string) (st0 st1 : State)
    (l : list (Tx * Call)) (tx : Tx) (sid' : N) (h : string) :
  msg_sender tx0 ≠ 0 →
  registerStudent tx0 sid h0 st0 = Ok st1 →
  let st2 := run l st1 in
  registerStudent tx sid h st2 = Revert StudentIdAlreadyRegistered ∧
  (msg_sender tx = msg_sender tx0 →
   (∃ e, registerStudent tx sid' h st2 = Revert e ∧
         (e = InvalidStudentId ∨ e = StudentIdAlreadyRegistered ∨
          e = WalletAlreadyRegistered)) ∧
   (0 < sid' → get_wallet st2 sid' = 0 →
    registerStudent tx sid' h st2 = Revert WalletAlreadyRegistered)) ∧
  (∀ e, registerStudent tx sid' h st2 = Revert e →
        step st2 (tx, RegisterStudent sid' h) = st2 ∧
        accountCount (step st2 (tx, RegisterStudent sid' h)) = accountCount st2).
Proof.
  intros Hs H st2. destruct (register_binds _ _ _ _ _ H) as (Hpos & Hw & Hid).
  assert (HP : get_wallet st2 sid ≠ 0 ∧ studentId (get_student st2 (msg_sender tx0)) ≠ 0).
  { subst st2.
    apply (run_preserves
             (λ s, get_wallet s sid ≠ 0 ∧ studentId (get_student s (msg_sender tx0)) ≠ 0)).
    - intros tx1 c s s' He [P1 P2]. split.
      + by rewrite (wallet_kept _ _ _ _ _ He P1).
      + by rewrite (studentId_kept _ _ _ _ _ He P2).
    - rewrite Hw, Hid. split; [done | lia]. }
  destruct HP as [Hw2 Hid2].
  apply N.eqb_neq in Hw2, Hid2. apply N.ltb_lt in Hpos.
  repeat split.
  - unfold registerStudent. by rewrite Hpos, Hw2.
  - unfold registerStudent. rewrite H0.
    destruct (0 <? sid'); simpl; [|eauto].
    destruct (get_wallet st2 sid' =? 0); simpl; [|eauto].
    rewrite Hid2. simpl. eauto.
  - intros Hp Hfree. unfold registerStudent. rewrite H0.
    apply N.ltb_lt in Hp. apply N.eqb_eq in Hfree. by rewrite Hp, Hfree, Hid2.
  - unfold step. simpl. by rewrite H0.
  - unfold step. simpl. by rewrite H0.
Qed.

Lemma C7_register_duplicates_witness :
  registerStudent (from 12) 42 "QmB" st_registered = Revert StudentIdAlreadyRegistered ∧
  registerStudent (from 11) 43 "QmB" st_registered = Revert WalletAlreadyRegistered ∧
  accountCount (step st_registered (from 11, RegisterStudent 43 "QmB"))
    = accountCount st_registered.
Proof.
  destruct (C7_register_duplicates (from 11) 42 "QmA" (constructor 1) st_registered
              [] (from 12) 43 "QmB") as (Hdup & _ & _).
  { simpl. discriminate. }
  { vm_compute. reflexivity. }
  destruct (C7_register_duplicates (from 11) 42 "QmA" (constructor 1) st_registered
              [] (from 11) 43 "QmB") as (_ & Hwallet & Hsame).
  { simpl. discriminate. }
  { vm_compute. reflexivity. }
  destruct (Hwallet eq_refl) as [_ Hexact].
  split; [exact Hdup|]. split.
  - apply Hexact; vm_compute; reflexivity.
  - eapply Hsame. apply Hexact; vm_compute; reflexivity.
Defined.

(** ** C6: creating a scholarship *)

(** Scenario D of the design document: 2 wei for 5 beneficiaries is turned
    down, nothing is stored and nothing is held. *)
Example scenario_D :
  createScholarship (paying 1 2) "Merit" 5 "equal shares" (constructor 1)
    = Revert InsufficientFundsForCount ∧
  step (constructor 1) (paying 1 2, CreateScholarship "Merit" 5 "equal shares")
    = constructor 1.
Proof. vm_compute. done. Qed.

(** C6, counterexample.  The owner sends 100 wei for 3 beneficiaries, so
    the count is positive and the share is 33, but with an empty title:
    the call fails with "Title cannot be empty". *)
Lemma C6_create_counterexample :
  0 < 3 ∧ 1 ≤ msg_value (paying 1 100) / 3 ∧
  msg_sender (paying 1 100) = owner (constructor 1) ∧
  createScholarship (paying 1 100) EmptyString 3 "equal shares" (constructor 1)
    = Revert EmptyTitle.
Proof. repeat split; vm_compute; done. Qed.

(** C6, as the contract has it.  For every non-empty title, every count
    and every amount sent by the owner: if the count is positive and
    amount / count is at least 1 (and neither totalFunds nor the counter
    would overflow), createScholarship stores, under the next id, a
    scholarship with claimAmount = amount / count (truncated),
    totalAmount = remainingAmount = amount, claimsProcessed = 0 and
    active = true, and the contract holds the amount.  If amount / count
    is 0, in particular if the count is 0, the call fails, whoever calls
    and whatever the title, and leaves the state unchanged: nothing is
    stored and nothing is held. *)
Theorem C6_createScholarship (tx : Tx) (_title : string) (_beneficiaryCount : N)
    (_description : string) (st : State) :
  (msg_sender tx = owner st →
   _title ≠ EmptyString →
   0 < _beneficiaryCount →
   1 ≤ msg_value tx / _beneficiaryCount →
   totalFunds st + msg_value tx ≤ MAX_UINT256 →
   scholarshipCounter st + 1 ≤ MAX_UINT256 →
   ∃ st',
     createScholarship tx _title _beneficiaryCount _description st = Ok st' ∧
     scholarshipCounter st' = scholarshipCounter st + 1 ∧
     balance st' = balance st + msg_value tx ∧
     scholarships st' !! scholarshipCounter st =
       Some {| sch_id := scholarshipCounter st;
               title := _title;
               description := _description;
               totalAmount := msg_value tx;
               remainingAmount := msg_value tx;
               claimAmount := msg_value tx / _beneficiaryCount;
               beneficiaryCount := _beneficiaryCount;
               claimsProcessed := 0;
               creator := msg_sender tx;
               createdAt := block_timestamp tx;
               active := true |}) ∧
  (_beneficiaryCount = 0 ∨ msg_value tx / _beneficiaryCount = 0 →
   (∃ e, createScholarship tx _title _beneficiaryCount _description st = Revert e) ∧
   step st (tx, CreateScholarship _title _beneficiaryCount _description) = st).
Proof.
  split.
  - intros Ho Ht Hn Hshare Htf Hc.
    unfold createScholarship, onlyOwner, checked_add.
    apply N.eqb_eq in Ho. rewrite Ho. simpl.
    assert (Hv : 0 < msg_value tx).
    { destruct (N.eq_dec (msg_value tx) 0) as [Hz|]; [|lia].
      rewrite Hz, N.Div0.div_0_l in Hshare. lia. }
    apply N.ltb_lt in Hv. rewrite Hv. simpl.
    apply N.ltb_lt in Hn. rewrite Hn. simpl.
    destruct _title as [|c t]; [done|]. simpl.
    assert (Hs : (0 <? msg_value tx / _beneficiaryCount) = true)
      by (apply N.ltb_lt; lia).
    rewrite Hs. simpl.
    apply N.leb_le in Htf, Hc. rewrite Htf. simpl. rewrite Hc. simpl.
    eexists. split; [reflexivity|]. simpl.
    repeat split. by rewrite lookup_insert_eq.
  - intros Hz.
    assert (He : ∃ e, createScholarship tx _title _beneficiaryCount _description st
                      = Revert e).
    { unfold createScholarship, onlyOwner.
      destruct (msg_sender tx =? owner st); simpl; [|eauto].
      destruct (0 <? msg_value tx); simpl; [|eauto].
      destruct (N.ltb_spec 0 _beneficiaryCount) as [Hn|Hn]; simpl; [|eauto].
      destruct (nonempty _title); simpl; [|eauto].
      destruct Hz as [Hz|Hz]; [lia|]. rewrite Hz. simpl. eauto. }
    split; [done|]. destruct He as [e He]. unfold step. simpl. by rewrite He.
Qed.

Lemma C6_createScholarship_witness :
  (∃ st',
     createScholarship (paying 1 100) "Merit" 3 "equal shares" (constructor 1) = Ok st' ∧
     claimAmount (get_scholarship st' 0) = 33 ∧
     remainingAmount (get_scholarship st' 0) = 100 ∧
     claimsProcessed (get_scholarship st' 0) = 0 ∧
     active (get_scholarship st' 0) = true) ∧
  step (constructor 1) (paying 1 2, CreateScholarship "Merit" 5 "equal shares")
    = constructor 1.
Proof.
  destruct (C6_createScholarship (paying 1 100) "Merit" 3 "equal shares" (constructor 1))
    as [Hok _].
  destruct (C6_createScholarship (paying 1 2) "Merit" 5 "equal shares" (constructor 1))
    as [_ Hfail].
  split.
  - destruct Hok as (st' & Hc & _ & _ & Hs);
      [reflexivity | discriminate | reflexivity | vm_compute; discriminate
      | vm_compute; discriminate | vm_compute; discriminate |].
    exists st'. split; [exact Hc|].
    unfold get_scholarship. simpl in Hs. rewrite Hs. vm_compute. done.
  - apply Hfail. right. reflexivity.
Defined.

(** ** C9: the guards of verifyEligibility *)

(** C9, counterexample.  Wallet 20 never registered.  The oracle's call
    for wallet 20 with student id 7 fails with "Student ID mismatch",
    the failure of a registered wallet with another id, not with a
    failure that tells the account does not exist. *)
Lemma C9_unregistered_counterexample :
  students (constructor 1) !! 20 = None ∧
  msg_sender (from 1) = oracleAddress (constructor 1) ∧
  verifyEligibility (from 1) 20 7 true "GPA: 3.8" (constructor 1)
    = Revert StudentIdMismatch ∧
  kind StudentIdMismatch = KIdentityMismatch ∧
  kind StudentIdMismatch ≠ KAccountNotFound.
Proof. repeat split; vm_compute; done. Qed.

(** C9, as the contract has it.  verifyEligibility succeeds only when the
    caller is the current oracle, the student address is not the zero
    address and the supplied student id equals the id stored for that
    address.  It fails with "Only oracle can call this function" for any
    other caller, with "Invalid student address" for the zero address,
    and with "Student ID mismatch" for every address, registered or not,
    whose stored id differs from the supplied one.  A failing call
    changes no state. *)
Theorem C9_verifyEligibility_guards (tx : Tx) (a sid : N) (e : bool) (r : string)
    (st : State) :
  (∀ st', verifyEligibility tx a sid e r st = Ok st' →
     msg_sender tx = oracleAddress st ∧ a ≠ 0 ∧ studentId (get_student st a) = sid) ∧
  (msg_sender tx ≠ oracleAddress st →
   verifyEligibility tx a sid e r st = Revert NotOracle) ∧
  (msg_sender tx = oracleAddress st → a = 0 →
   verifyEligibility tx a sid e r st = Revert InvalidStudentAddress) ∧
  (msg_sender tx = oracleAddress st → a ≠ 0 → studentId (get_student st a) ≠ sid →
   verifyEligibility tx a sid e r st = Revert StudentIdMismatch) ∧
  (∀ err, verifyEligibility tx a sid e r st = Revert err →
     step st (tx, VerifyEligibility a sid e r) = st).
Proof.
  repeat split.
  - unfold verifyEligibility in H. inv_bind H. by apply N.eqb_eq.
  - unfold verifyEligibility in H. inv_bind H.
    apply negb_true_iff, N.eqb_neq in Hreq0. done.
  - unfold verifyEligibility in H. inv_bind H. by apply N.eqb_eq.
  - intros Hn. apply N.eqb_neq in Hn.
    unfold verifyEligibility, onlyOracle. by rewrite Hn.
  - intros Ho Ha. apply N.eqb_eq in Ho. subst a.
    unfold verifyEligibility, onlyOracle. by rewrite Ho.
  - intros Ho Ha Hid. apply N.eqb_eq in Ho. apply N.eqb_neq in Ha, Hid.
    unfold verifyEligibility, onlyOracle. by rewrite Ho, Ha, Hid.
  - intros err He. unfold step. simpl. by rewrite He.
Qed.

Lemma C9_verifyEligibility_guards_witness :
  verifyEligibility (from 12) 11 42 true "GPA: 3.8" st_registered = Revert NotOracle ∧
  verifyEligibility (from 1) 0 42 true "GPA: 3.8" st_registered
    = Revert InvalidStudentAddress ∧
  verifyEligibility (from 1) 11 43 true "GPA: 3.8" st_registered
    = Revert StudentIdMismatch ∧
  step st_registered (from 1, VerifyEligibility 11 43 true "GPA: 3.8") = st_registered.
Proof.
  destruct (C9_verifyEligibility_guards (from 12) 11 42 true "GPA: 3.8" st_registered)
    as (_ & H1 & _).
  destruct (C9_verifyEligibility_guards (from 1) 0 42 true "GPA: 3.8" st_registered)
    as (_ & _ & H2 & _).
  destruct (C9_verifyEligibility_guards (from 1) 11 43 true "GPA: 3.8" st_registered)
    as (_ & _ & _ & H3 & H4).
  split; [apply H1; vm_compute; discriminate|].
  split; [apply H2; vm_compute; reflexivity|].
  assert (Hm : verifyEligibility (from 1) 11 43 true "GPA: 3.8" st_registered
               = Revert StudentIdMismatch).
  { apply H3; vm_compute; [reflexivity | discriminate | discriminate]. }
  split; [exact Hm | exact (H4 _ Hm)].
Defined.

(** ** C8: the verification history *)

(** C8, the state the contract reaches on that input.  Both calls succeed.
    Wallet 11 is then registered (student id 101) with isEligible =
    false, while the most recent record of its verification history says
    true: the status does not mirror the latest record. *)
Theorem C8_status_differs_from_latest_record :
  reachable st_verify_then_register ∧
  (∃ st1,
     verifyEligibility (from 1) 11 0 true "GPA: 3.8" (constructor 1) = Ok st1 ∧
     registerStudent (from 11) 101 "QmA" st1 = Ok st_verify_then_register) ∧
  studentId (get_student st_verify_then_register 11) = 101 ∧
  get_wallet st_verify_then_register 101 = 11 ∧
  isEligible (get_student st_verify_then_register 11) = false ∧
  vr_isEligible <$> last (get_history st_verify_then_register 11) = Some true.
Proof.
  split.
  { apply reachable_run; [by apply reachable_deploy | senders_nonzero]. }
  split.
  { eexists. split; vm_compute; reflexivity. }
  repeat split; vm_compute; reflexivity.
Qed.

(** * Further properties of the contract *)

(** ** The ledger: balance, totalFunds and withdrawals *)

Lemma withdrawn_in_snoc evs ev :
  withdrawn_in (evs ++ [ev]) =
  withdrawn_in evs + match ev with FundsWithdrawn _ amount => amount | _ => 0 end.
Proof.
  induction evs as [|e evs IH]; simpl.
  - destruct ev; lia.
  - destruct e; rewrite IH; lia.
Qed.

Lemma ledger_step tx c st st' :
  exec tx c st = Ok st' →
  totalFunds st ≤ balance st + withdrawn st →
  totalFunds st' ≤ balance st' + withdrawn st'.
Proof.
  intros H Hl. unfold withdrawn in *. destruct c; simpl in H.
  - unfold setOracleAddress in H. inv_bind H. subst st'. simpl.
    rewrite withdrawn_in_snoc. lia.
  - unfold registerStudent in H. inv_bind H. subst st'. simpl.
    rewrite withdrawn_in_snoc. lia.
  - unfold verifyEligibility in H. inv_bind H. subst st'. simpl.
    rewrite withdrawn_in_snoc. lia.
  - unfold createScholarship in H. inv_bind H. subst st'. simpl.
    rewrite withdrawn_in_snoc. lia.
  - unfold claimScholarship in H. inv_bind H. subst st'. simpl.
    rewrite withdrawn_in_snoc.
    apply andb_true_iff in Hreq4 as [Hb _]. apply N.leb_le in Hb. lia.
  - unfold withdrawUnclaimedFunds in H. inv_bind H. subst st'. simpl.
    rewrite withdrawn_in_snoc. apply N.leb_le in Hreq0. lia.
  - unfold receive in H. inv_bind H. subst st'. simpl.
    rewrite withdrawn_in_snoc. lia.
Qed.

(** X1.  In every reachable state totalFunds is at most the contract's
    balance plus everything withdrawn so far: each wei counted in
    totalFunds is still held or was paid out by withdrawUnclaimedFunds.
    (A withdrawal lowers the balance but never totalFunds, and ether that
    reaches the contract without a call raises the balance only, so the
    two sides need not be equal.) *)
Theorem X1_balance_ledger (st : State) :
  reachable st → totalFunds st ≤ getContractBalance st + withdrawn st.
Proof.
  unfold getContractBalance.
  induction 1 as [d Hd | st tx c st' Hr IH Hs He | st v Hr IH].
  - simpl. lia.
  - eapply ledger_step; eauto.
  - unfold withdrawn in *. simpl. lia.
Qed.

Lemma X1_balance_ledger_witness :
  totalFunds st_withdraw ≤ getContractBalance st_withdraw + withdrawn st_withdraw.
Proof. apply (X1_balance_ledger st_withdraw). apply st_withdraw_reachable. Defined.

(** ** Roles *)

Lemma owner_step tx c st st' : exec tx c st = Ok st' → owner st' = owner st.
Proof.
  intros H. destruct c; simpl in H.
  - unfold setOracleAddress in H. inv_bind H. by subst.
  - unfold registerStudent in H. inv_bind H. by subst.
  - unfold verifyEligibility in H. inv_bind H. by subst.
  - unfold createScholarship in H. inv_bind H. by subst.
  - unfold claimScholarship in H. inv_bind H. by subst.
  - unfold withdrawUnclaimedFunds in H. inv_bind H. by subst.
  - unfold receive in H. inv_bind H. by subst.
Qed.

(** X2.  No sequence of transactions changes the owner: the contract has
    no function that writes it after deployment. *)
Theorem X2_owner_fixed (l : list (Tx * Call)) (st : State) :
  owner (run l st) = owner st.
Proof.
  apply (run_preserves (λ s, owner s = owner st)); [|done].
  intros tx c s s' He Hs. by rewrite (owner_step _ _ _ _ He).
Qed.

(** X3.  In every reachable state the owner and the oracle are not the
    zero address. *)
Theorem X3_roles_nonzero (st : State) :
  reachable st → owner st ≠ 0 ∧ oracleAddress st ≠ 0.
Proof.
  induction 1 as [d Hd | st tx c st' Hr [IHo IHr] Hs He | st v Hr [IHo IHr]];
    [done | | by split].
  - split; [by rewrite (owner_step _ _ _ _ He)|].
    destruct c; simpl in He.
    + unfold setOracleAddress in He. inv_bind He. subst st'. simpl.
      by apply negb_true_iff, N.eqb_neq in Hreq0.
    + unfold registerStudent in He. inv_bind He. by subst.
    + unfold verifyEligibility in He. inv_bind He. by subst.
    + unfold createScholarship in He. inv_bind He. by subst.
    + unfold claimScholarship in He. inv_bind He. by subst.
    + unfold withdrawUnclaimedFunds in He. inv_bind He. by subst.
    + unfold receive in He. inv_bind He. by subst.
Qed.

Lemma X3_roles_nonzero_witness :
  owner st_three_claims ≠ 0 ∧ oracleAddress st_three_claims ≠ 0.
Proof. apply (X3_roles_nonzero st_three_claims). apply st_three_claims_reachable. Defined.

(** What a transaction that is not sent by the owner leaves alone. *)
Lemma not_owner_step tx c st st' :
  exec tx c st = Ok st' →
  msg_sender tx ≠ owner st →
  oracleAddress st' = oracleAddress st ∧
  scholarshipCounter st' = scholarshipCounter st ∧
  withdrawn st' = withdrawn st ∧
  balance st' ≤ balance st + msg_value tx.
Proof.
  intros H Hn. apply N.eqb_neq in Hn. unfold withdrawn. destruct c; simpl in H.
  - unfold setOracleAddress in H. inv_bind H. congruence.
  - unfold registerStudent in H. inv_bind H. subst st'. simpl.
    rewrite withdrawn_in_snoc. repeat split; lia.
  - unfold verifyEligibility in H. inv_bind H. subst st'. simpl.
    rewrite withdrawn_in_snoc. repeat split; lia.
  - unfold createScholarship in H. inv_bind H. congruence.
  - unfold claimScholarship in H. inv_bind H. subst st'. simpl.
    rewrite withdrawn_in_snoc. repeat split; lia.
  - unfold withdrawUnclaimedFunds in H. inv_bind H. congruence.
  - unfold receive in H. inv_bind H. subst st'. simpl.
    rewrite withdrawn_in_snoc. repeat split; lia.
Qed.

(** X4.  Transactions from addresses other than the owner never change
    the oracle, never create a scholarship and never withdraw: after any
    run without a transaction from the owner, the oracle, the scholarship
    counter and the withdrawn total are what they were. *)
Theorem X4_owner_only (l : list (Tx * Call)) (st : State) :
  Forall (λ txc, msg_sender (fst txc) ≠ owner st) l →
  oracleAddress (run l st) = oracleAddress st ∧
  scholarshipCounter (run l st) = scholarshipCounter st ∧
  withdrawn (run l st) = withdrawn st.
Proof.
  intros Hl. revert st Hl.
  induction l as [|[tx c] l IH]; intros st Hl; [done|].
  inversion Hl as [|x l' Hx Hl']; subst. simpl in Hx. simpl.
  destruct (step_cases st (tx, c)) as [-> | He]; [by apply IH|].
  simpl in He.
  destruct (not_owner_step _ _ _ _ He Hx) as (Ho & Hc & Hw & _).
  destruct (IH (step st (tx, c))) as (Ho' & Hc' & Hw').
  - rewrite (owner_step _ _ _ _ He). done.
  - rewrite Ho', Hc', Hw'. done.
Qed.

Lemma X4_owner_only_witness :
  let l := [ (from 11, SetOracleAddress 11);
             (paying 11 50, CreateScholarship "Mine" 1 "self");
             (from 11, WithdrawUnclaimedFunds 100);
             (from 11, RegisterStudent 101 "QmA") ] in
  oracleAddress (run l st_funded) = oracleAddress st_funded ∧
  scholarshipCounter (run l st_funded) = scholarshipCounter st_funded ∧
  withdrawn (run l st_funded) = withdrawn st_funded.
Proof.
  intros l. apply (X4_owner_only l st_funded).
  repeat constructor; vm_compute; discriminate.
Defined.

(** X5.  Funds leave the contract in two ways only: a successful call
    lowers the balance only if it is a claim by a wallet that is eligible
    and has not claimed, paying one share of an existing scholarship, or
    a withdrawal sent by the owner. *)
Theorem X5_outflows (tx : Tx) (c : Call) (st st' : State) :
  exec tx c st = Ok st' →
  balance st' < balance st →
  (∃ i, c = ClaimScholarship i ∧
        i < scholarshipCounter st ∧
        isEligible (get_student st (msg_sender tx)) = true ∧
        hasClaimedScholarship (get_student st (msg_sender tx)) = false ∧
        balance st' = balance st - claimAmount (get_scholarship st i)) ∨
  (∃ a, c = WithdrawUnclaimedFunds a ∧
        msg_sender tx = owner st ∧
        balance st' = balance st - a).
Proof.
  intros H Hlt. destruct c; simpl in H.
  - unfold setOracleAddress in H. inv_bind H. subst st'. simpl in Hlt. lia.
  - unfold registerStudent in H. inv_bind H. subst st'. simpl in Hlt. lia.
  - unfold verifyEligibility in H. inv_bind H. subst st'. simpl in Hlt. lia.
  - unfold createScholarship in H. inv_bind H. subst st'. simpl in Hlt. lia.
  - left. exists _scholarshipId. unfold claimScholarship in H. inv_bind H. subst st'.
    apply andb_true_iff in Hreq as [Hi _]. apply N.ltb_lt in Hi.
    apply negb_true_iff in Hreq1. done.
  - right. exists _amount. unfold withdrawUnclaimedFunds in H. inv_bind H. subst st'.
    apply N.eqb_eq in Hreq. done.
  - unfold receive in H. inv_bind H. subst st'. simpl in Hlt. lia.
Qed.

Lemma X5_outflows_witness :
  (∃ i, ClaimScholarship 0 = ClaimScholarship i ∧
        i < scholarshipCounter st_before_claim ∧
        isEligible (get_student st_before_claim (msg_sender (from 11))) = true ∧
        hasClaimedScholarship (get_student st_before_claim (msg_sender (from 11))) = false ∧
        balance st_two_pools
          = balance st_before_claim - claimAmount (get_scholarship st_before_claim i)) ∨
  (∃ a, ClaimScholarship 0 = WithdrawUnclaimedFunds a ∧
        msg_sender (from 11) = owner st_before_claim ∧
        balance st_two_pools = balance st_before_claim - a).
Proof.
  apply (X5_outflows (from 11) (ClaimScholarship 0) st_before_claim st_two_pools).
  - vm_compute. reflexivity.
  - vm_compute. reflexivity.
Defined.

(** ** The registry: one wallet per student id, one id per wallet *)

(** Calls other than [registerStudent] keep every wallet's student id and
    the whole id-to-wallet mapping. *)
Lemma registry_kept tx c st st' :
  exec tx c st = Ok st' →
  (∀ sid h, c ≠ RegisterStudent sid h) →
  studentIdToWallet st' = studentIdToWallet st ∧
  ∀ a, studentId (get_student st' a) = studentId (get_student st a).
Proof.
  intros H Hc. destruct c; simpl in H.
  - unfold setOracleAddress in H. inv_bind H. by subst.
  - by destruct (Hc _studentId _applicationHash).
  - unfold verifyEligibility in H. inv_bind H. subst st'. split; [done|].
    intros a. unfold get_student at 1. simpl. rewrite default_insert.
    destruct (decide (_studentAddress = a)) as [<-|]; done.
  - unfold createScholarship in H. inv_bind H. by subst.
  - unfold claimScholarship in H. inv_bind H. subst st'. split; [done|].
    intros a. unfold get_student at 1. simpl. rewrite default_insert.
    destruct (decide (msg_sender tx = a)) as [<-|]; done.
  - unfold withdrawUnclaimedFunds in H. inv_bind H. by subst.
  - unfold receive in H. inv_bind H. by subst.
Qed.

Lemma registry_inv st :
  reachable st →
  (∀ a, studentId (get_student st a) ≠ 0 →
        a ≠ 0 ∧ get_wallet st (studentId (get_student st a)) = a) ∧
  (∀ s, get_wallet st s ≠ 0 →
        s ≠ 0 ∧ studentId (get_student st (get_wallet st s)) = s).
Proof.
  induction 1 as [d Hd | st tx c st' Hr [IH1 IH2] Hs He | st v Hr [IH1 IH2]];
    [| | split; [exact IH1 | exact IH2]].
  - split; intros x Hx; by vm_compute in Hx.
  - assert (Hc : (∃ sid h, c = RegisterStudent sid h) ∨
                 (∀ sid h, c ≠ RegisterStudent sid h))
      by (destruct c; eauto; right; discriminate).
    destruct Hc as [(sid & h & ->)|Hn].
    + simpl in He. unfold registerStudent in He. inv_bind He. subst st'.
      apply N.ltb_lt in Hreq. apply N.eqb_eq in Hreq0, Hreq1.
      unfold get_student, get_wallet in *. simpl.
      split.
      * intros a. rewrite !default_insert.
        destruct (decide (msg_sender tx = a)) as [<-|Hne]; simpl.
        -- intros _. by rewrite decide_True.
        -- intros Ha. destruct (IH1 a Ha) as [Ha0 Hw]. split; [done|].
           destruct (decide (sid = _)) as [Heq|]; [|done].
           rewrite <- Heq in Hw. congruence.
      * intros s. rewrite !default_insert.
        destruct (decide (sid = s)) as [<-|Hne]; simpl.
        -- intros _. rewrite decide_True by done. split; [lia | done].
        -- intros Hw. destruct (IH2 s Hw) as [Hs0 Hid]. split; [done|].
           destruct (decide (msg_sender tx = _)) as [Heq|]; [|done].
           rewrite <- Heq in Hid. congruence.
    + destruct (registry_kept _ _ _ _ He Hn) as [Hw Hid].
      unfold get_wallet in *. rewrite Hw. split.
      * intros a. rewrite !Hid. apply IH1.
      * intros s Hws. rewrite Hid. by apply IH2.
Qed.

(** X6.  In every reachable state the two registry mappings are inverse
    to each other: for a non-zero wallet and a non-zero student id, the
    wallet's record carries the id exactly when the id is mapped to the
    wallet.  So no two wallets share a student id and no wallet has two. *)
Theorem X6_registry_bijection (st : State) (a s : N) :
  reachable st → a ≠ 0 → s ≠ 0 →
  (studentId (get_student st a) = s ↔ get_wallet st s = a).
Proof.
  intros Hr Ha Hs. destruct (registry_inv st Hr) as [H1 H2]. split.
  - intros Hid. destruct (H1 a) as [_ Hw]; [congruence|]. by rewrite Hid in Hw.
  - intros Hw. destruct (H2 s) as [_ Hid]; [congruence|]. by rewrite Hw in Hid.
Qed.

Lemma X6_registry_bijection_witness :
  studentId (get_student st_three_claims 12) = 102 ↔ get_wallet st_three_claims 102 = 12.
Proof.
  apply (X6_registry_bijection st_three_claims 12 102).
  - apply st_three_claims_reachable.
  - discriminate.
  - discriminate.
Defined.

(** ** The event log agrees with storage *)

Lemma claimed_in_snoc a evs ev :
  claimed_in a (evs ++ [ev]) =
  claimed_in a evs +
  match ev with
  | ScholarshipClaimed student _ amount _ => if student =? a then amount else 0
  | _ => 0
  end.
Proof.
  induction evs as [|e evs IH]; simpl.
  - destruct ev; lia.
  - destruct e; rewrite IH; lia.
Qed.

Lemma pool_claims_in_snoc i evs ev :
  pool_claims_in i (evs ++ [ev]) =
  pool_claims_in i evs +
  match ev with
  | ScholarshipClaimed _ scholarshipId _ _ => if scholarshipId =? i then 1 else 0
  | _ => 0
  end.
Proof.
  induction evs as [|e evs IH]; simpl.
  - destruct ev; lia.
  - destruct e; rewrite IH; lia.
Qed.

(** X7.  In every reachable state claimedAmounts of an address is the sum
    of the amounts of the ScholarshipClaimed events logged for it. *)
Theorem X7_claimed_amounts_ledger (st : State) (a : N) :
  reachable st → get_claimed st a = claimed_in a (events st).
Proof.
  induction 1 as [d Hd | st tx c st' Hr IH Hs He | st v Hr IH]; [done | | exact IH].
  destruct c; simpl in He.
  - unfold setOracleAddress in He. inv_bind He. subst st'.
    unfold get_claimed in *. simpl. rewrite claimed_in_snoc. lia.
  - unfold registerStudent in He. inv_bind He. subst st'.
    unfold get_claimed in *. simpl. rewrite claimed_in_snoc. lia.
  - unfold verifyEligibility in He. inv_bind He. subst st'.
    unfold get_claimed in *. simpl. rewrite claimed_in_snoc. lia.
  - unfold createScholarship in He. inv_bind He. subst st'.
    unfold get_claimed in *. simpl. rewrite claimed_in_snoc. lia.
  - unfold claimScholarship in He. inv_bind He. subst st'.
    unfold get_claimed in *. simpl. rewrite claimed_in_snoc, default_insert.
    destruct (decide (msg_sender tx = a)) as [<-|Hne].
    + rewrite N.eqb_refl. fold (get_claimed st (msg_sender tx)). unfold get_claimed. lia.
    + apply N.eqb_neq in Hne. rewrite Hne. lia.
  - unfold withdrawUnclaimedFunds in He. inv_bind He. subst st'.
    unfold get_claimed in *. simpl. rewrite claimed_in_snoc. lia.
  - unfold receive in He. inv_bind He. subst st'.
    unfold get_claimed in *. simpl. rewrite claimed_in_snoc. lia.
Qed.

Lemma X7_claimed_amounts_ledger_witness :
  get_claimed st_three_claims 12 = claimed_in 12 (events st_three_claims).
Proof.
  apply (X7_claimed_amounts_ledger st_three_claims 12). apply st_three_claims_reachable.
Defined.

(** X8.  In every reachable state claimsProcessed of a scholarship is the
    number of ScholarshipClaimed events logged for its id, and what
    remains is the total less one share per such event. *)
Theorem X8_claims_processed_ledger (st : State) (i : N) :
  reachable st →
  claimsProcessed (get_scholarship st i) = pool_claims_in i (events st) ∧
  remainingAmount (get_scholarship st i) =
    totalAmount (get_scholarship st i)
    - pool_claims_in i (events st) * claimAmount (get_scholarship st i).
Proof.
  intros Hr.
  assert (Hcp : claimsProcessed (get_scholarship st i) = pool_claims_in i (events st)).
  { clear -Hr. revert i.
    induction Hr as [d Hd | st tx c st' Hr IH Hs He | st v Hr IH]; intros i;
      [done | | apply IH].
    destruct c; simpl in He.
    - unfold setOracleAddress in He. inv_bind He. subst st'.
      unfold get_scholarship. simpl. rewrite pool_claims_in_snoc, N.add_0_r. apply IH.
    - unfold registerStudent in He. inv_bind He. subst st'.
      unfold get_scholarship. simpl. rewrite pool_claims_in_snoc, N.add_0_r. apply IH.
    - unfold verifyEligibility in He. inv_bind He. subst st'.
      unfold get_scholarship. simpl. rewrite pool_claims_in_snoc, N.add_0_r. apply IH.
    - destruct (reachable_pools_inv st Hr) as [_ Hnone].
      unfold createScholarship in He. inv_bind He. subst st'.
      unfold get_scholarship. simpl.
      rewrite pool_claims_in_snoc, N.add_0_r, default_insert.
      destruct (decide (scholarshipCounter st = i)) as [<-|]; [|apply IH].
      simpl. rewrite <- IH. unfold get_scholarship.
      rewrite (Hnone (scholarshipCounter st)) by lia. done.
    - unfold claimScholarship in He. inv_bind He. subst st'.
      unfold get_scholarship at 1. simpl.
      rewrite pool_claims_in_snoc, default_insert.
      destruct (decide (_scholarshipId = i)) as [<-|Hne]; simpl.
      + rewrite N.eqb_refl, <- IH. done.
      + apply N.eqb_neq in Hne. rewrite Hne, N.add_0_r. apply IH.
    - unfold withdrawUnclaimedFunds in He. inv_bind He. subst st'.
      unfold get_scholarship. simpl. rewrite pool_claims_in_snoc, N.add_0_r. apply IH.
    - unfold receive in He. inv_bind He. subst st'.
      unfold get_scholarship. simpl. rewrite pool_claims_in_snoc, N.add_0_r. apply IH. }
  split; [done|]. rewrite <- Hcp.
  destruct (N.lt_ge_cases i (scholarshipCounter st)) as [Hi|Hi].
  - destruct (reachable_pool_ok st i Hr Hi) as (_ & _ & _ & _ & H5 & _). lia.
  - destruct (reachable_pools_inv st Hr) as [_ Hnone].
    unfold get_scholarship. rewrite (Hnone i Hi). done.
Qed.

Lemma X8_claims_processed_ledger_witness :
  claimsProcessed (get_scholarship st_three_claims 0)
    = pool_claims_in 0 (events st_three_claims) ∧
  remainingAmount (get_scholarship st_three_claims 0) =
    totalAmount (get_scholarship st_three_claims 0)
    - pool_claims_in 0 (events st_three_claims)
      * claimAmount (get_scholarship st_three_claims 0).
Proof.
  apply (X8_claims_processed_ledger st_three_claims 0). apply st_three_claims_reachable.
Defined.

(** ** Scholarship records over time *)

Lemma pool_step tx c st st' i :
  exec tx c st = Ok st' →
  i < scholarshipCounter st →
  let s := get_scholarship st i in
  let s' := get_scholarship st' i in
  scholarshipCounter st ≤ scholarshipCounter st' ∧
  sch_id s' = sch_id s ∧ title s' = title s ∧ description s' = description s ∧
  totalAmount s' = totalAmount s ∧ claimAmount s' = claimAmount s ∧
  beneficiaryCount s' = beneficiaryCount s ∧ creator s' = creator s ∧
  createdAt s' = createdAt s ∧ active s' = active s ∧
  remainingAmount s' ≤ remainingAmount s ∧
  claimsProcessed s ≤ claimsProcessed s'.
Proof.
  intros H Hi. destruct c; simpl in H.
  - unfold setOracleAddress in H. inv_bind H. subst st'. simpl. repeat split; (done || lia).
  - unfold registerStudent in H. inv_bind H. subst st'. simpl. repeat split; (done || lia).
  - unfold verifyEligibility in H. inv_bind H. subst st'. simpl. repeat split; (done || lia).
  - unfold createScholarship in H. inv_bind H. subst st'.
    unfold get_scholarship. simpl. rewrite default_insert, decide_False by lia.
    repeat split; (done || lia).
  - unfold claimScholarship in H. inv_bind H. subst st'.
    unfold get_scholarship in *. simpl. rewrite default_insert.
    destruct (decide (_scholarshipId = i)) as [<-|]; simpl; repeat split; (done || lia).
  - unfold withdrawUnclaimedFunds in H. inv_bind H. subst st'. simpl. repeat split; (done || lia).
  - unfold receive in H. inv_bind H. subst st'. simpl. repeat split; (done || lia).
Qed.

(** X9.  Along any run, a scholarship that exists keeps its id, title,
    description, total amount, share, beneficiary count, creator,
    creation time and active flag; its remaining amount never grows, its
    count of processed claims never shrinks, and the scholarship counter
    never decreases. *)
Theorem X9_scholarship_monotone (l : list (Tx * Call)) (st : State) (i : N) :
  i < scholarshipCounter st →
  let s := get_scholarship st i in
  let s' := get_scholarship (run l st) i in
  scholarshipCounter st ≤ scholarshipCounter (run l st) ∧
  sch_id s' = sch_id s ∧ title s' = title s ∧ description s' = description s ∧
  totalAmount s' = totalAmount s ∧ claimAmount s' = claimAmount s ∧
  beneficiaryCount s' = beneficiaryCount s ∧ creator s' = creator s ∧
  createdAt s' = createdAt s ∧ active s' = active s ∧
  remainingAmount s' ≤ remainingAmount s ∧
  claimsProcessed s ≤ claimsProcessed s'.
Proof.
  intros Hi s s'. subst s s'.
  apply (run_preserves
           (λ x, scholarshipCounter st ≤ scholarshipCounter x ∧
                 sch_id (get_scholarship x i) = sch_id (get_scholarship st i) ∧
                 title (get_scholarship x i) = title (get_scholarship st i) ∧
                 description (get_scholarship x i) = description (get_scholarship st i) ∧
                 totalAmount (get_scholarship x i) = totalAmount (get_scholarship st i) ∧
                 claimAmount (get_scholarship x i) = claimAmount (get_scholarship st i) ∧
                 beneficiaryCount (get_scholarship x i)
                   = beneficiaryCount (get_scholarship st i) ∧
                 creator (get_scholarship x i) = creator (get_scholarship st i) ∧
                 createdAt (get_scholarship x i) = createdAt (get_scholarship st i) ∧
                 active (get_scholarship x i) = active (get_scholarship st i) ∧
                 remainingAmount (get_scholarship x i)
                   ≤ remainingAmount (get_scholarship st i) ∧
                 claimsProcessed (get_scholarship st i)
                   ≤ claimsProcessed (get_scholarship x i))).
  - intros tx c x x' He (P0 & P1 & P2 & P3 & P4 & P5 & P6 & P7 & P8 & P9 & P10 & P11).
    assert (Hix : i < scholarshipCounter x) by lia.
    destruct (pool_step _ _ _ _ i He Hix)
      as (Q0 & Q1 & Q2 & Q3 & Q4 & Q5 & Q6 & Q7 & Q8 & Q9 & Q10 & Q11).
    repeat split; try congruence; lia.
  - repeat split; (done || lia).
Qed.

Lemma X9_scholarship_monotone_witness :
  let s := get_scholarship st_funded 0 in
  let s' := get_scholarship (run (drop 1 trace_three_claims) st_funded) 0 in
  scholarshipCounter st_funded
    ≤ scholarshipCounter (run (drop 1 trace_three_claims) st_funded) ∧
  sch_id s' = sch_id s ∧ title s' = title s ∧ description s' = description s ∧
  totalAmount s' = totalAmount s ∧ claimAmount s' = claimAmount s ∧
  beneficiaryCount s' = beneficiaryCount s ∧ creator s' = creator s ∧
  createdAt s' = createdAt s ∧ active s' = active s ∧
  remainingAmount s' ≤ remainingAmount s ∧
  claimsProcessed s ≤ claimsProcessed s'.
Proof.
  apply (X9_scholarship_monotone (drop 1 trace_three_claims) st_funded 0).
  vm_compute. reflexivity.
Defined.

(** X10.  In every reachable state the scholarships are exactly the ids
    below the counter, each stored under its own id and active: for such
    an id getScholarship returns the record and getScholarshipBalance its
    remaining amount, and for every other id both revert with
    "Scholarship does not exist". *)
Theorem X10_scholarship_views (st : State) (i : N) :
  reachable st →
  (i < getTotalScholarships st →
   getScholarship i st = Ok (get_scholarship st i) ∧
   getScholarshipBalance i st = Ok (remainingAmount (get_scholarship st i)) ∧
   sch_id (get_scholarship st i) = i) ∧
  (getTotalScholarships st ≤ i →
   getScholarship i st = Revert ScholarshipDoesNotExist ∧
   getScholarshipBalance i st = Revert ScholarshipDoesNotExist ∧
   scholarships st !! i = None).
Proof.
  intros Hr. destruct (reachable_pools_inv st Hr) as [Hlt Hge].
  unfold getTotalScholarships, getScholarship, getScholarshipBalance, scholarshipExists.
  split; intros Hi.
  - destruct (Hlt i Hi) as (s & Hs & Hok & Hid).
    destruct Hok as (_ & _ & _ & _ & _ & Ha).
    unfold get_scholarship. rewrite Hs. simpl.
    apply N.ltb_lt in Hi. by rewrite Hi, Ha.
  - apply N.ltb_ge in Hi as Hi'. rewrite Hi'. simpl. auto.
Qed.

Lemma X10_scholarship_views_witness :
  (getScholarship 1 st_two_pools = Ok (get_scholarship st_two_pools 1) ∧
   getScholarshipBalance 1 st_two_pools
     = Ok (remainingAmount (get_scholarship st_two_pools 1)) ∧
   sch_id (get_scholarship st_two_pools 1) = 1) ∧
  (getScholarship 2 st_two_pools = Revert ScholarshipDoesNotExist ∧
   getScholarshipBalance 2 st_two_pools = Revert ScholarshipDoesNotExist ∧
   scholarships st_two_pools !! 2 = None).
Proof.
  assert (Hr : reachable st_two_pools).
  { apply reachable_run; [by apply reachable_deploy | senders_nonzero]. }
  split.
  - apply (X10_scholarship_views st_two_pools 1 Hr). vm_compute. reflexivity.
  - apply (X10_scholarship_views st_two_pools 2 Hr). vm_compute. discriminate.
Defined.

(** ** When a claim goes through *)

Lemma reachable_total_bounded st i :
  reachable st → totalAmount (get_scholarship st i) ≤ MAX_UINT256.
Proof.
  intros Hr. revert i.
  induction Hr as [d Hd | st tx c st' Hr IH Hs He | st v Hr IH]; intros i;
    [| | apply IH].
  - apply N.le_0_l.
  - destruct c; simpl in He.
    + unfold setOracleAddress in He. inv_bind He. subst st'. apply IH.
    + unfold registerStudent in He. inv_bind He. subst st'. apply IH.
    + unfold verifyEligibility in He. inv_bind He. subst st'. apply IH.
    + unfold createScholarship in He. inv_bind He. subst st'.
      unfold get_scholarship. simpl. rewrite default_insert.
      destruct (decide (scholarshipCounter st = i)); [simpl; lia | apply IH].
    + unfold claimScholarship in He. inv_bind He. subst st'.
      unfold get_scholarship at 1. simpl. rewrite default_insert.
      destruct (decide (_scholarshipId = i)) as [<-|]; apply IH.
    + unfold withdrawUnclaimedFunds in He. inv_bind He. subst st'. apply IH.
    + unfold receive in He. inv_bind He. subst st'. apply IH.
Qed.

Lemma sum_upto_ext f g n :
  (∀ i, i < N.of_nat n → f i = g i) → sum_upto f n = sum_upto g n.
Proof.
  induction n as [|k IH]; intros H; [done|]. simpl.
  rewrite H by lia. rewrite IH; [done|]. intros i Hi. apply H. lia.
Qed.

Lemma sum_upto_ge f n j : j < N.of_nat n → f j ≤ sum_upto f n.
Proof.
  induction n as [|k IH]; intros Hj; [lia|]. simpl.
  destruct (N.eq_dec j (N.of_nat k)) as [->|Hne]; [lia|].
  assert (f j ≤ sum_upto f k) by (apply IH; lia). lia.
Qed.

(** Lowering one summand by [d] lowers the sum by [d]. *)
Lemma sum_upto_lower f g n j d :
  j < N.of_nat n →
  g j + d = f j →
  (∀ i, i ≠ j → g i = f i) →
  sum_upto g n + d = sum_upto f n.
Proof.
  induction n as [|k IH]; intros Hj Hd Ho; [lia|]. simpl.
  destruct (N.eq_dec j (N.of_nat k)) as [Heq|Hne].
  - rewrite <- Heq.
    rewrite (sum_upto_ext g f k); [lia|].
    intros i Hi. apply Ho. lia.
  - rewrite (Ho (N.of_nat k)) by congruence.
    assert (sum_upto g k + d = sum_upto f k) by (apply IH; [lia | done | done]).
    lia.
Qed.

Lemma reserved_step tx c st st' :
  exec tx c st = Ok st' →
  pools_inv st →
  reserved st ≤ totalFunds st →
  reserved st' ≤ totalFunds st'.
Proof.
  intros H [_ Hnone] Hle. unfold reserved in *. destruct c; simpl in H.
  - unfold setOracleAddress in H. inv_bind H. by subst.
  - unfold registerStudent in H. inv_bind H. by subst.
  - unfold verifyEligibility in H. inv_bind H. by subst.
  - unfold createScholarship in H. inv_bind H. subst st'. simpl.
    rewrite N.add_1_r, N2Nat.inj_succ. simpl. rewrite N2Nat.id.
    unfold get_scholarship at 1. simpl. rewrite lookup_insert_eq. simpl.
    rewrite (sum_upto_ext _ (λ i, remainingAmount (get_scholarship st i))); [lia|].
    intros i Hi. rewrite N2Nat.id in Hi.
    unfold get_scholarship. simpl. by rewrite lookup_insert_ne by lia.
  - unfold claimScholarship in H. inv_bind H. subst st'. simpl.
    apply andb_true_iff in Hreq as [Hi _]. apply N.ltb_lt in Hi.
    match goal with
    | |- sum_upto ?g ?n ≤ _ =>
        assert (Hs : sum_upto g n + claimAmount (get_scholarship st _scholarshipId)
                     = sum_upto (λ i, remainingAmount (get_scholarship st i)) n)
    end.
    { apply (sum_upto_lower _ _ _ _scholarshipId).
      - by rewrite N2Nat.id.
      - unfold get_scholarship at 1. simpl. rewrite lookup_insert_eq. simpl. lia.
      - intros i Hne. unfold get_scholarship. simpl. by rewrite lookup_insert_ne. }
    lia.
  - unfold withdrawUnclaimedFunds in H. inv_bind H. by subst.
  - unfold receive in H. inv_bind H. subst st'. simpl.
    change (sum_upto _ _) with
      (sum_upto (λ i, remainingAmount (get_scholarship st i))
         (N.to_nat (scholarshipCounter st))).
    lia.
Qed.

(** What the scholarships record as remaining is covered by totalFunds. *)
Lemma reserved_le_totalFunds st : reachable st → reserved st ≤ totalFunds st.
Proof.
  induction 1 as [d Hd | st tx c st' Hr IH Hs He | st v Hr IH].
  - vm_compute. discriminate.
  - eapply reserved_step; eauto. by apply reachable_pools_inv.
  - exact IH.
Qed.

(** X11.  In a reachable state a claim goes through whenever the
    scholarship exists, the caller is eligible and has not claimed, a
    place is left, the contract's balance covers one share, the caller
    accepts the payment and the caller's claimedAmounts does not
    overflow.  It then sets the caller's flag, counts one more claim,
    takes one share off the scholarship and off the balance, adds it to
    the caller's claimedAmounts and logs ScholarshipClaimed.  None of the
    other arithmetic checks can fail. *)
Theorem X11_claim_succeeds (tx : Tx) (i : N) (st : State) :
  reachable st →
  i < scholarshipCounter st →
  isEligible (get_student st (msg_sender tx)) = true →
  hasClaimedScholarship (get_student st (msg_sender tx)) = false →
  claimsProcessed (get_scholarship st i) < beneficiaryCount (get_scholarship st i) →
  claimAmount (get_scholarship st i) ≤ balance st →
  recipient_accepts tx = true →
  get_claimed st (msg_sender tx) + claimAmount (get_scholarship st i) ≤ MAX_UINT256 →
  ∃ st',
    claimScholarship tx i st = Ok st' ∧
    hasClaimedScholarship (get_student st' (msg_sender tx)) = true ∧
    claimsProcessed (get_scholarship st' i) = claimsProcessed (get_scholarship st i) + 1 ∧
    remainingAmount (get_scholarship st' i)
      = remainingAmount (get_scholarship st i) - claimAmount (get_scholarship st i) ∧
    balance st' = balance st - claimAmount (get_scholarship st i) ∧
    get_claimed st' (msg_sender tx)
      = get_claimed st (msg_sender tx) + claimAmount (get_scholarship st i) ∧
    events st' = events st ++
      [ScholarshipClaimed (msg_sender tx) i (claimAmount (get_scholarship st i))
         (block_timestamp tx)].
Proof.
  intros Hr Hi He Hc Hlt Hbal Hacc Hca.
  pose proof (reachable_pool_ok st i Hr Hi) as Hok.
  pose proof (pool_ok_covers_share _ Hok Hlt) as Hrem.
  pose proof (reachable_total_bounded st i Hr) as Htot.
  assert (Hres : remainingAmount (get_scholarship st i) ≤ totalFunds st).
  { etrans; [|exact (reserved_le_totalFunds st Hr)]. unfold reserved.
    apply (sum_upto_ge (λ j, remainingAmount (get_scholarship st j))).
    by rewrite N2Nat.id. }
  destruct Hok as (H1 & H2 & H3 & H4 & H5 & H6).
  assert (Hcnt : beneficiaryCount (get_scholarship st i)
                 ≤ totalAmount (get_scholarship st i)).
  { pose proof (N.Div0.mul_div_le (totalAmount (get_scholarship st i))
                  (beneficiaryCount (get_scholarship st i))) as Hm.
    rewrite <- H2 in Hm. nia. }
  unfold claimScholarship, scholarshipExists, studentIsEligible, checked_add, checked_sub.
  apply N.ltb_lt in Hi as Hi'. rewrite Hi', H6, He, Hc. simpl.
  apply N.ltb_lt in Hlt as Hlt'. rewrite Hlt'. simpl.
  apply N.leb_le in Hrem as Hrem'. rewrite Hrem'. simpl.
  assert (Hcp : (claimsProcessed (get_scholarship st i) + 1 <=? MAX_UINT256) = true)
    by (apply N.leb_le; lia).
  rewrite Hcp. simpl.
  apply N.leb_le in Hca as Hca'. rewrite Hca'. simpl.
  apply N.leb_le in Hbal as Hbal'. rewrite Hbal', Hacc. simpl.
  assert (Htf : (claimAmount (get_scholarship st i) <=? totalFunds st) = true)
    by (apply N.leb_le; lia).
  rewrite Htf. simpl.
  eexists. split; [reflexivity|].
  unfold get_student, get_scholarship, get_claimed. simpl.
  rewrite !default_insert, !decide_True by done. done.
Qed.

(** The owner withdraws the whole 100 wei of a funded scholarship; 40 wei
    then reach the contract without a call.  Wallet 11's claim of 33 wei
    is paid out of them. *)
Lemma X11_claim_succeeds_witness :
  let st := credit 40
              (run [ (paying 1 100, CreateScholarship "Merit" 3 "equal shares");
                     (from 11, RegisterStudent 101 "QmA");
                     (from 1, VerifyEligibility 11 101 true "GPA: 3.8");
                     (from 1, WithdrawUnclaimedFunds 100) ] (constructor 1)) in
  ∃ st',
    claimScholarship (from 11) 0 st = Ok st' ∧
    hasClaimedScholarship (get_student st' 11) = true ∧
    claimsProcessed (get_scholarship st' 0) = 0 + 1 ∧
    remainingAmount (get_scholarship st' 0) = 100 - 33 ∧
    balance st' = 40 - 33 ∧
    get_claimed st' 11 = 0 + 33 ∧
    events st' = events st ++ [ScholarshipClaimed 11 0 33 1000].
Proof.
  intros st.
  assert (Hr : reachable st).
  { apply reachable_credit.
    apply reachable_run; [by apply reachable_deploy | senders_nonzero]. }
  apply (X11_claim_succeeds (from 11) 0 st Hr); vm_compute;
    first [reflexivity | discriminate].
Defined.

(** ** Eligibility *)

Lemma eligibility_step tx c st st' a :
  exec tx c st = Ok st' →
  (∀ sid r, c ≠ VerifyEligibility a sid true r) →
  isEligible (get_student st a) = false →
  isEligible (get_student st' a) = false.
Proof.
  intros H Hc Hf. destruct c; simpl in H.
  - unfold setOracleAddress in H. inv_bind H. by subst.
  - unfold registerStudent in H. inv_bind H. subst st'.
    unfold get_student at 1. simpl. rewrite default_insert.
    destruct (decide (msg_sender tx = a)) as [<-|]; done.
  - unfold verifyEligibility in H. inv_bind H. subst st'.
    unfold get_student at 1. simpl. rewrite default_insert.
    destruct (decide (_studentAddress = a)) as [<-|]; [|done]. simpl.
    destruct _isEligible; [|done]. by destruct (Hc _studentId _reason).
  - unfold createScholarship in H. inv_bind H. by subst.
  - unfold claimScholarship in H. inv_bind H. subst st'.
    unfold get_student at 1. simpl. rewrite default_insert.
    destruct (decide (msg_sender tx = a)) as [<-|]; done.
  - unfold withdrawUnclaimedFunds in H. inv_bind H. by subst.
  - unfold receive in H. inv_bind H. by subst.
Qed.

(** X12.  Only verifyEligibility grants eligibility: a wallet that is not
    eligible stays so along every run that contains no
    verifyEligibility(wallet, _, true, _) call, and each of its claims
    after such a run fails with "Scholarship does not exist" or "Student
    is not verified as eligible". *)
Theorem X12_eligibility_only_by_verification
    (l : list (Tx * Call)) (st : State) (a : N) (tx : Tx) (i : N) :
  isEligible (get_student st a) = false →
  Forall (λ txc, ∀ sid r, snd txc ≠ VerifyEligibility a sid true r) l →
  msg_sender tx = a →
  getStudentEligibilityStatus a (run l st) = false ∧
  (claimScholarship tx i (run l st) = Revert ScholarshipDoesNotExist ∨
   claimScholarship tx i (run l st) = Revert StudentNotEligible).
Proof.
  intros Hf Hl Hs.
  assert (Hf' : isEligible (get_student (run l st) a) = false).
  { revert st Hf. induction Hl as [|[tx0 c] l Hx Hl IH]; intros st Hf; [done|].
    simpl. apply IH. destruct (step_cases st (tx0, c)) as [-> | He]; [done|].
    eapply eligibility_step; eauto. }
  split; [done|].
  unfold claimScholarship, scholarshipExists, studentIsEligible.
  destruct (_ && _); simpl; [|auto]. rewrite Hs, Hf'. auto.
Qed.

Lemma X12_eligibility_only_by_verification_witness :
  let l := [ (from 1, VerifyEligibility 11 101 true "GPA: 3.8");
             (from 15, RegisterStudent 105 "QmE");
             (from 1, VerifyEligibility 15 105 false "GPA below threshold");
             (from 11, ClaimScholarship 0) ] in
  getStudentEligibilityStatus 15 (run l st_registered) = false ∧
  (claimScholarship (from 15) 0 (run l st_registered) = Revert ScholarshipDoesNotExist ∨
   claimScholarship (from 15) 0 (run l st_registered) = Revert StudentNotEligible).
Proof.
  intros l. apply (X12_eligibility_only_by_verification l st_registered 15 (from 15) 0).
  - vm_compute. reflexivity.
  - repeat constructor; simpl; intros sid r; discriminate.
  - reflexivity.
Defined.

Lemma status_mirror_step tx c st st' a :
  exec tx c st = Ok st' →
  studentId (get_student st a) ≠ 0 →
  isEligible (get_student st a) = latest_status st a →
  isEligible (get_student st' a) = latest_status st' a.
Proof.
  intros H Hid Hm. unfold latest_status in *. destruct c; simpl in H.
  - unfold setOracleAddress in H. inv_bind H. by subst.
  - unfold registerStudent in H. inv_bind H. subst st'.
    unfold get_student, get_history in *. simpl. rewrite default_insert.
    destruct (decide (msg_sender tx = a)) as [<-|]; [|done].
    apply N.eqb_eq in Hreq1. contradiction.
  - unfold verifyEligibility in H. inv_bind H. subst st'.
    unfold get_student, get_history in *. simpl. rewrite !default_insert.
    destruct (decide (_studentAddress = a)) as [<-|]; [|done].
    simpl. by rewrite last_snoc.
  - unfold createScholarship in H. inv_bind H. by subst.
  - unfold claimScholarship in H. inv_bind H. subst st'.
    unfold get_student, get_history in *. simpl. rewrite default_insert.
    destruct (decide (msg_sender tx = a)) as [<-|]; done.
  - unfold withdrawUnclaimedFunds in H. inv_bind H. by subst.
  - unfold receive in H. inv_bind H. by subst.
Qed.

(** X13.  For a wallet that carries a student id: once its isEligible
    flag equals the status of its most recent verification record (false
    without a record), the two stay equal along every run; and every
    successful verifyEligibility makes them equal. *)
Theorem X13_status_mirrors_latest_record
    (l : list (Tx * Call)) (st : State) (a : N) :
  studentId (get_student st a) ≠ 0 →
  (isEligible (get_student st a) = latest_status st a →
   isEligible (get_student (run l st) a) = latest_status (run l st) a) ∧
  (∀ tx sid e r st',
     verifyEligibility tx a sid e r st = Ok st' →
     isEligible (get_student st' a) = e ∧ latest_status st' a = e ∧
     isEligible (get_student (run l st') a) = latest_status (run l st') a).
Proof.
  intros Hid.
  assert (Hrun : ∀ s, studentId (get_student s a) ≠ 0 →
                      isEligible (get_student s a) = latest_status s a →
                      isEligible (get_student (run l s) a) = latest_status (run l s) a).
  { intros s Hs Hm.
    apply (run_preserves
             (λ x, studentId (get_student x a) ≠ 0 ∧
                   isEligible (get_student x a) = latest_status x a)); [|done].
    intros tx c x x' He [P1 P2]. split.
    - by rewrite (studentId_kept _ _ _ _ _ He P1).
    - by apply (status_mirror_step _ _ _ _ _ He P1 P2). }
  split; [by apply Hrun|].
  intros tx sid e r st' Hv.
  destruct (verifyEligibility_appends _ _ _ _ _ _ _ Hv) as [Hh He].
  assert (Hl : latest_status st' a = e).
  { unfold latest_status. rewrite Hh, last_snoc. done. }
  repeat split; [done | done |].
  apply Hrun; [|congruence].
  rewrite (studentId_kept tx (VerifyEligibility a sid e r) st st' a Hv Hid). done.
Qed.

Lemma X13_status_mirrors_latest_record_witness :
  isEligible (get_student st_revoked 11) = latest_status st_revoked 11.
Proof.
  destruct (X13_status_mirrors_latest_record (drop 2 trace_revoked)
              (run (take 2 trace_revoked) (constructor 1)) 11) as [Hkeep _].
  - vm_compute. discriminate.
  - apply Hkeep. vm_compute. reflexivity.
Defined.

(** ** Withdrawals against open scholarships *)



(** ** Rotating the oracle *)

(** X15.  A successful setOracleAddress is a call by the owner with a
    non-zero address; it leaves every student record and every
    verification history as it was, and afterwards verifyEligibility
    from any address other than the new oracle, the previous oracle
    included, fails with "Only oracle can call this function". *)
Theorem X15_oracle_rotation (tx : Tx) (_newOracle : N) (st st' : State) :
  setOracleAddress tx _newOracle st = Ok st' →
  msg_sender tx = owner st ∧
  _newOracle ≠ 0 ∧
  oracleAddress st' = _newOracle ∧
  (∀ a, get_student st' a = get_student st a ∧ get_history st' a = get_history st a) ∧
  (∀ tx' a sid e r,
     msg_sender tx' ≠ _newOracle →
     verifyEligibility tx' a sid e r st' = Revert NotOracle).
Proof.
  unfold setOracleAddress. intros H. inv_bind H. subst st'.
  apply N.eqb_eq in Hreq. apply negb_true_iff, N.eqb_neq in Hreq0.
  repeat split; try done.
  intros tx' a sid e r Hn. apply N.eqb_neq in Hn.
  unfold verifyEligibility, onlyOracle. simpl. by rewrite Hn.
Qed.

Lemma X15_oracle_rotation_witness :
  oracleAddress (step st_registered (from 1, SetOracleAddress 2)) = 2 ∧
  verifyEligibility (from 1) 11 42 true "GPA: 3.8"
    (step st_registered (from 1, SetOracleAddress 2)) = Revert NotOracle.
Proof.
  destruct (X15_oracle_rotation (from 1) 2 st_registered
              (step st_registered (from 1, SetOracleAddress 2)))
    as (_ & _ & Ho & _ & Hv).
  - vm_compute. reflexivity.
  - split; [exact Ho|]. apply Hv. vm_compute. discriminate.
Defined.

(** ** Registration and the first claim *)

Lemma not_verified_stays_ineligible l st a :
  Forall (λ txc, ∀ sid r, snd txc ≠ VerifyEligibility a sid true r) l →
  isEligible (get_student st a) = false →
  isEligible (get_student (run l st) a) = false.
Proof.
  intros Hl. revert st. induction Hl as [|[tx0 c] l Hx Hl IH]; intros st Hf; [done|].
  simpl. apply IH. destruct (step_cases st (tx0, c)) as [-> | He]; [done|].
  eapply eligibility_step; eauto.
Qed.

(** X16.  A successful registerStudent stores the caller's record with
    the given id and application hash, not eligible and not claimed, and
    leaves the other wallets' records alone; and until the oracle
    verifies the wallet, that is after every run without a
    verifyEligibility(wallet, _, true, _) call, each of its claims fails
    with "Scholarship does not exist" or "Student is not verified as
    eligible". *)
Theorem X16_registered_not_yet_eligible (tx : Tx) (sid : N) (h : string)
    (st st' : State) (l : list (Tx * Call)) :
  registerStudent tx sid h st = Ok st' →
  Forall (λ txc, ∀ sid' r, snd txc ≠ VerifyEligibility (msg_sender tx) sid' true r) l →
  getStudent (msg_sender tx) st' = mkStudent sid (msg_sender tx) h false false 0 ∧
  (∀ a, a ≠ msg_sender tx → getStudent a st' = getStudent a st) ∧
  (∀ tx' i, msg_sender tx' = msg_sender tx →
     claimScholarship tx' i (run l st') = Revert ScholarshipDoesNotExist ∨
     claimScholarship tx' i (run l st') = Revert StudentNotEligible).
Proof.
  intros H Hl.
  assert (Hme : get_student st' (msg_sender tx)
                = mkStudent sid (msg_sender tx) h false false 0).
  { unfold registerStudent in H. inv_bind H. subst st'.
    unfold get_student. simpl. rewrite default_insert, decide_True; done. }
  assert (Hother : ∀ a, a ≠ msg_sender tx → get_student st' a = get_student st a).
  { intros a Ha. unfold registerStudent in H. inv_bind H. subst st'.
    unfold get_student. simpl. rewrite default_insert, decide_False by done. done. }
  unfold getStudent. repeat split; [done | done |].
  intros tx' i Hs.
  assert (Hf : isEligible (get_student (run l st') (msg_sender tx)) = false).
  { apply not_verified_stays_ineligible; [done|]. by rewrite Hme. }
  unfold claimScholarship, scholarshipExists, studentIsEligible.
  destruct (_ && _); simpl; [|auto].
  rewrite Hs, Hf. auto.
Qed.

(** Wallet 11 registers; a scholarship is funded and another wallet is
    registered and verified; wallet 11 still cannot claim. *)
Lemma X16_registered_not_yet_eligible_witness :
  let l := [ (paying 1 100, CreateScholarship "Merit" 3 "equal shares");
             (from 12, RegisterStudent 43 "QmB");
             (from 1, VerifyEligibility 12 43 true "GPA: 3.5");
             (from 1, VerifyEligibility 11 42 false "GPA below threshold") ] in
  getStudent 11 st_registered = mkStudent 42 11 "QmA" false false 0 ∧
  (claimScholarship (from 11) 0 (run l st_registered) = Revert ScholarshipDoesNotExist ∨
   claimScholarship (from 11) 0 (run l st_registered) = Revert StudentNotEligible).
Proof.
  intros l.
  destruct (X16_registered_not_yet_eligible (from 11) 42 "QmA" (constructor 1)
              st_registered l) as (Hrec & _ & Hclaim).
  - vm_compute. reflexivity.
  - repeat constructor; simpl; intros sid' r; discriminate.
  - split; [exact Hrec | by apply Hclaim].
Defined.

(** ** The verification history *)

(** X17.  Along any run the verification history of every address only
    grows at its end: the history before the run is a prefix of the
    history after it. *)
Theorem X17_history_grows_only (l : list (Tx * Call)) (st : State) (a : N) :
  getVerificationHistory a st `prefix_of` getVerificationHistory a (run l st).
Proof.
  unfold getVerificationHistory.
  apply (run_preserves (λ x, get_history st a `prefix_of` get_history x a)); [|done].
  intros tx c x x' He Hp. etrans; [exact Hp|].
  by eapply history_append_only.
Qed.

(** X18.  In every reachable state each record in the history of an
    address names that address as its student, the address is not the
    zero address, and the record's verifier is not the zero address. *)
Theorem X18_history_attribution (st : State) (a : N) (r : VerificationRecord) :
  reachable st →
  r ∈ get_history st a →
  vr_student r = a ∧ a ≠ 0 ∧ vr_verifier r ≠ 0.
Proof.
  intros Hr. revert r.
  induction Hr as [d Hd | st tx c st' Hr IH Hs He | st v Hr IH]; intros r Hin;
    [| | by apply IH].
  - vm_compute in Hin. by apply elem_of_nil in Hin.
  - destruct c; simpl in He.
    + unfold setOracleAddress in He. inv_bind He. subst st'. by apply IH.
    + unfold registerStudent in He. inv_bind He. subst st'. by apply IH.
    + unfold verifyEligibility in He. inv_bind He. subst st'.
      unfold get_history in Hin. simpl in Hin. rewrite default_insert in Hin.
      destruct (decide (_studentAddress = a)) as [<-|]; [|by apply IH].
      apply elem_of_app in Hin as [Hin|Hin]; [by apply IH|].
      apply list_elem_of_singleton in Hin. subst r. simpl.
      apply negb_true_iff, N.eqb_neq in Hreq0. done.
    + unfold createScholarship in He. inv_bind He. subst st'. by apply IH.
    + unfold claimScholarship in He. inv_bind He. subst st'. by apply IH.
    + unfold withdrawUnclaimedFunds in He. inv_bind He. subst st'. by apply IH.
    + unfold receive in He. inv_bind He. subst st'. by apply IH.
Qed.

Lemma X18_history_attribution_witness :
  vr_student (mkVerificationRecord 11 101 true "GPA: 3.8" 1000 1) = 11 ∧
  11 ≠ 0 ∧
  vr_verifier (mkVerificationRecord 11 101 true "GPA: 3.8" 1000 1) ≠ 0.
Proof.
  apply (X18_history_attribution st_revoked 11
           (mkVerificationRecord 11 101 true "GPA: 3.8" 1000 1)).
  - apply reachable_run; [by apply reachable_deploy | senders_nonzero].
  - vm_compute. apply list_elem_of_here.
Defined.

(** ** Identity and eligibility calls move no funds *)

(** X19.  registerStudent, verifyEligibility and setOracleAddress never
    touch money: a successful call leaves the balance, totalFunds, every
    scholarship record, the scholarship counter and every claimedAmounts
    entry as they were. *)
Theorem X19_identity_calls_move_no_funds (tx : Tx) (c : Call) (st st' : State) :
  exec tx c st = Ok st' →
  match c with
  | RegisterStudent _ _ | VerifyEligibility _ _ _ _ | SetOracleAddress _ => True
  | _ => False
  end →
  balance st' = balance st ∧
  totalFunds st' = totalFunds st ∧
  scholarships st' = scholarships st ∧
  scholarshipCounter st' = scholarshipCounter st ∧
  claimedAmounts st' = claimedAmounts st.
Proof.
  intros H Hc. destruct c; try contradiction; simpl in H.
  - unfold setOracleAddress in H. inv_bind H. by subst.
  - unfold registerStudent in H. inv_bind H. by subst.
  - unfold verifyEligibility in H. inv_bind H. by subst.
Qed.

Lemma X19_identity_calls_move_no_funds_witness :
  let st := run (take 2 trace_revoked) (constructor 1) in
  let st' := run (take 3 trace_revoked) (constructor 1) in
  balance st' = balance st ∧
  totalFunds st' = totalFunds st ∧
  scholarships st' = scholarships st ∧
  scholarshipCounter st' = scholarshipCounter st ∧
  claimedAmounts st' = claimedAmounts st.
Proof.
  intros st st'.
  apply (X19_identity_calls_move_no_funds (from 1)
           (VerifyEligibility 11 101 true "GPA: 3.8") st st').
  - vm_compute. reflexivity.
  - exact I.
Defined.

(** ** The claimed flag and the amounts paid *)

(** X20.  In every reachable state a wallet whose hasClaimedScholarship
    flag is set has been paid: its claimedAmounts entry is positive. *)
Theorem X20_flag_implies_paid (st : State) (a : N) :
  reachable st →
  hasClaimedScholarship (get_student st a) = true →
  0 < get_claimed st a.
Proof.
  induction 1 as [d Hd | st tx c st' Hr IH Hs He | st v Hr IH]; intros Hc;
    [| | by apply IH].
  - by vm_compute in Hc.
  - destruct c; simpl in He.
    + unfold setOracleAddress in He. inv_bind He. subst st'. by apply IH.
    + unfold registerStudent in He. inv_bind He. subst st'.
      unfold get_student in Hc. simpl in Hc. rewrite default_insert in Hc.
      destruct (decide (msg_sender tx = a)); [done | by apply IH].
    + unfold verifyEligibility in He. inv_bind He. subst st'.
      unfold get_student in Hc. simpl in Hc. rewrite default_insert in Hc.
      destruct (decide (_studentAddress = a)) as [<-|]; by apply IH.
    + unfold createScholarship in He. inv_bind He. subst st'. by apply IH.
    + unfold claimScholarship in He. inv_bind He. subst st'.
      apply andb_true_iff in Hreq as [Hi _]. apply N.ltb_lt in Hi.
      destruct (reachable_pool_ok st _scholarshipId Hr Hi) as (_ & _ & Hpos & _).
      unfold get_student in Hc. simpl in Hc. rewrite default_insert in Hc.
      unfold get_claimed. simpl. rewrite default_insert.
      destruct (decide (msg_sender tx = a)) as [<-|]; [lia | by apply IH].
    + unfold withdrawUnclaimedFunds in He. inv_bind He. subst st'. by apply IH.
    + unfold receive in He. inv_bind He. subst st'. by apply IH.
Qed.

Lemma X20_flag_implies_paid_witness : 0 < get_claimed st_three_claims 13.
Proof.
  apply (X20_flag_implies_paid st_three_claims 13).
  - apply st_three_claims_reachable.
  - vm_compute. reflexivity.
Defined.

(** ** The truncation remainder *)

(** X21.  In every reachable state what remains in a scholarship is one
    share per free place plus the remainder of the integer division that
    fixed the share: remainingAmount = (beneficiaryCount -
    claimsProcessed) * claimAmount + totalAmount mod beneficiaryCount.
    When all places are taken exactly that remainder is left, and no
    claim can take it. *)
Theorem X21_truncation_remainder (st : State) (i : N) (tx : Tx) :
  reachable st →
  i < scholarshipCounter st →
  let s := get_scholarship st i in
  remainingAmount s =
    (beneficiaryCount s - claimsProcessed s) * claimAmount s
    + totalAmount s mod beneficiaryCount s ∧
  (claimsProcessed s = beneficiaryCount s →
   remainingAmount s = totalAmount s mod beneficiaryCount s ∧
   ∃ e, claimScholarship tx i st = Revert e ∧ e ≠ InsufficientScholarshipFunds ∧
        e ≠ TransferFailed ∧ e ≠ Panic).
Proof.
  intros Hr Hi s. subst s.
  destruct (reachable_pool_ok st i Hr Hi) as (H1 & H2 & H3 & H4 & H5 & H6).
  pose proof (N.Div0.div_mod (totalAmount (get_scholarship st i))
                (beneficiaryCount (get_scholarship st i))) as Hdm.
  rewrite <- H2 in Hdm.
  assert (Hrem : remainingAmount (get_scholarship st i) =
                 (beneficiaryCount (get_scholarship st i)
                  - claimsProcessed (get_scholarship st i))
                 * claimAmount (get_scholarship st i)
                 + totalAmount (get_scholarship st i)
                   mod beneficiaryCount (get_scholarship st i)) by nia.
  split; [done|]. intros Hfull. split.
  - rewrite Hrem at 1. rewrite Hfull, N.sub_diag. lia.
  - unfold claimScholarship, scholarshipExists, studentIsEligible.
    apply N.ltb_lt in Hi. rewrite Hi, H6. simpl.
    destruct (isEligible _); simpl; [|eexists; split; [done|]; repeat split; discriminate].
    destruct (hasClaimedScholarship _); simpl;
      [eexists; split; [done|]; repeat split; discriminate|].
    rewrite Hfull, N.ltb_irrefl. simpl.
    eexists; split; [done|]; repeat split; discriminate.
Qed.

Lemma X21_truncation_remainder_witness :
  let s := get_scholarship st_three_claims 0 in
  remainingAmount s =
    (beneficiaryCount s - claimsProcessed s) * claimAmount s
    + totalAmount s mod beneficiaryCount s ∧
  remainingAmount s = totalAmount s mod beneficiaryCount s.
Proof.
  intros s.
  destruct (X21_truncation_remainder st_three_claims 0 (from 14))
    as [Hrem Hfull].
  - apply st_three_claims_reachable.
  - vm_compute. reflexivity.
  - split; [exact Hrem|]. apply Hfull. vm_compute. reflexivity.
Defined.

(** ** What the scholarships reserve *)

(** X22.  In every reachable state the remaining amounts of all
    scholarships together are at most totalFunds, so the remaining amount
    of each scholarship is at most totalFunds: the subtraction of a share
    from totalFunds at the end of a claim never underflows. *)
Theorem X22_reserved_covered (st : State) (i : N) :
  reachable st →
  reserved st ≤ totalFunds st ∧
  remainingAmount (get_scholarship st i) ≤ totalFunds st ∧
  (i < scholarshipCounter st →
   claimsProcessed (get_scholarship st i) < beneficiaryCount (get_scholarship st i) →
   claimAmount (get_scholarship st i) ≤ totalFunds st).
Proof.
  intros Hr. pose proof (reserved_le_totalFunds st Hr) as Hres.
  assert (Hrem : remainingAmount (get_scholarship st i) ≤ totalFunds st).
  { destruct (N.lt_ge_cases i (scholarshipCounter st)) as [Hi|Hi].
    - etrans; [|exact Hres]. unfold reserved.
      apply (sum_upto_ge (λ j, remainingAmount (get_scholarship st j))).
      by rewrite N2Nat.id.
    - destruct (reachable_pools_inv st Hr) as [_ Hnone].
      unfold get_scholarship. rewrite (Hnone i Hi). simpl. lia. }
  repeat split; [done | done |].
  intros Hi Hlt.
  pose proof (pool_ok_covers_share _ (reachable_pool_ok st i Hr Hi) Hlt). lia.
Qed.

Lemma X22_reserved_covered_witness :
  reserved st_two_pools ≤ totalFunds st_two_pools ∧
  remainingAmount (get_scholarship st_two_pools 1) ≤ totalFunds st_two_pools ∧
  claimAmount (get_scholarship st_two_pools 1) ≤ totalFunds st_two_pools.
Proof.
  destruct (X22_reserved_covered st_two_pools 1) as (H1 & H2 & H3).
  - apply reachable_run; [by apply reachable_deploy | senders_nonzero].
  - split; [exact H1|]. split; [exact H2|]. apply H3; vm_compute; reflexivity.
Defined.
